(** * Shopping agent: catalog client and tool-call orchestration

    A shallow embedding of [shopping_agent.py].  Python values that travel
    through JSON are modelled by the type [json]; exceptions are explicit
    ([result]); the conversation loop is written in a small state-and-exception
    monad [M] whose store carries the transcript, the outside world and a
    record of the requests sent to the outside world.

    The remote services and the library functions whose code is not part of
    the program ([requests.get], the chat-completion endpoint, [json.loads],
    [json.dumps], [str.lower], [str.strip]) are the fields of an environment
    [Env]; every theorem holds for every environment.  The exceptions are
    the subclasses of [Exception], the ones the program's handlers catch.
    The user's lines are a list, and reading past its end raises [EOFError].

    [console.print] parses its text as markup and raises when the markup is
    not well formed, so every print whose text holds text from the model,
    the catalog or an exception is part of the program below, at the place
    the source has it; what the console does with a text is a field of
    [Env], and each print is recorded in the trace.  The prints of constant,
    well-formed markup (the banner, the progress line, the goodbye panel)
    cannot raise for that reason and are left out. *)

From Stdlib Require Import String Ascii List ZArith QArith Lia Bool Arith.
From Stdlib Require Import DecimalString.
Import ListNotations.
Close Scope Q_scope.
Open Scope list_scope.
Open Scope string_scope.

Set Warnings "-register-all".

(** ** Values *)

(** A decoded JSON document, which is also the shape of every Python value
    the program handles: [None], [bool], [int], [float], [str], [list] and
    [dict] with string keys (an association list in insertion order, read
    at the first binding of a key). *)
Inductive json : Type :=
| JNull
| JBool (b : bool)
| JInt (n : Z)
| JFloat (x : Q)
| JStr (s : string)
| JArr (items : list json)
| JObj (fields : list (string * json)).

(** [type(v).__name__], as it appears in the interpreter's messages. *)
Definition type_name (v : json) : string :=
  match v with
  | JNull => "NoneType"
  | JBool _ => "bool"
  | JInt _ => "int"
  | JFloat _ => "float"
  | JStr _ => "str"
  | JArr _ => "list"
  | JObj _ => "dict"
  end.

(** ** Exceptions *)

Inductive exn_class : Type :=
| RequestException        (* requests.RequestException: ConnectionError, Timeout, ... *)
| HTTPError               (* requests.HTTPError, a RequestException *)
| RequestsJSONDecodeError (* requests.JSONDecodeError: a RequestException and a json.JSONDecodeError *)
| JSONDecodeError         (* json.JSONDecodeError *)
| TypeError
| AttributeError
| IndexError
| KeyError
| EOFError
| OtherException.         (* any other subclass of Exception *)

Record exn : Type := Exn { exn_cls : exn_class; exn_str : string }.

Definition isinstance_RequestException (e : exn) : bool :=
  match exn_cls e with
  | RequestException | HTTPError | RequestsJSONDecodeError => true
  | _ => false
  end.

Definition isinstance_JSONDecodeError (e : exn) : bool :=
  match exn_cls e with
  | JSONDecodeError | RequestsJSONDecodeError => true
  | _ => false
  end.

(** The outcome of evaluating a Python expression: a value or a raised
    exception. *)
Inductive result (A : Type) : Type :=
| Ok (a : A)
| Raise (e : exn).
Arguments Ok {A} a.
Arguments Raise {A} e.

Definition rbind {A B} (r : result A) (k : A -> result B) : result B :=
  match r with
  | Ok a => k a
  | Raise e => Raise e
  end.

Declare Scope result_scope.
Delimit Scope result_scope with result.
Notation "'let?' x ':=' r 'in' k" := (rbind r (fun x => k))
  (at level 10, x name, r at level 200, k at level 200) : result_scope.

(** ** Python primitives used by the program *)

(** [needle in hay] on two [str]: substring test. *)
Fixpoint str_in (needle hay : string) : bool :=
  if String.prefix needle hay then true
  else match hay with
       | EmptyString => false
       | String _ hay' => str_in needle hay'
       end.

(** [d.get(k)] on a dict. *)
Fixpoint dict_get (k : string) (d : list (string * json)) : option json :=
  match d with
  | [] => None
  | (k', v) :: d' => if String.eqb k k' then Some v else dict_get k d'
  end.

(** [s == v] for a [str] [s] and an arbitrary value [v]. *)
Definition str_eq_value (s : string) (v : json) : bool :=
  match v with
  | JStr s' => String.eqb s s'
  | _ => false
  end.

(** [needle in container] for a [str] needle: key membership on a dict,
    element membership on a list, substring test on a str; every other
    type is not iterable. *)
Definition py_in (needle : string) (container : json) : result bool :=
  match container with
  | JObj fields =>
      Ok (match dict_get needle fields with Some _ => true | None => false end)
  | JArr items => Ok (existsb (str_eq_value needle) items)
  | JStr s => Ok (str_in needle s)
  | v => Raise (Exn TypeError
                  ("argument of type '" ++ type_name v ++ "' is not iterable"))
  end.

(** [container[key]] for a [str] key, evaluated only after
    [key in container] held. *)
Definition py_getitem (container : json) (key : string) : result json :=
  match container with
  | JObj fields =>
      match dict_get key fields with
      | Some v => Ok v
      | None => Raise (Exn KeyError ("'" ++ key ++ "'"))
      end
  | JArr _ => Raise (Exn TypeError "list indices must be integers or slices, not str")
  | JStr _ => Raise (Exn TypeError "string indices must be integers, not 'str'")
  | v => Raise (Exn TypeError ("'" ++ type_name v ++ "' object is not subscriptable"))
  end.

(** [isinstance(v, list)]. *)
Definition isinstance_list (v : json) : bool :=
  match v with
  | JArr _ => true
  | _ => false
  end.

(** Truth value of a Python object, as tested by [if v:]. *)
Definition truthy (v : json) : bool :=
  match v with
  | JNull => false
  | JBool b => b
  | JInt n => negb (Z.eqb n 0)
  | JFloat x => negb (Qeq_bool x 0)
  | JStr s => negb (String.eqb s EmptyString)
  | JArr items => match items with [] => false | _ => true end
  | JObj fields => match fields with [] => false | _ => true end
  end.

(** [product.get(key, default)]: only a dict has [get]. *)
Definition py_get (product : json) (key : string) (default : json) : result json :=
  match product with
  | JObj fields =>
      Ok (match dict_get key fields with Some v => v | None => default end)
  | v => Raise (Exn AttributeError
                  ("'" ++ type_name v ++ "' object has no attribute 'get'"))
  end.

(** Decimal numeral of a list position, for the interpreter's message. *)
Definition index_text (i : nat) : string :=
  NilZero.string_of_uint (Nat.to_uint i).

(** [sep.join(items)]: every item must be a [str]. *)
Fixpoint join_from (i : nat) (sep : string) (items : list json) : result string :=
  match items with
  | [] => Ok EmptyString
  | v :: rest =>
      match v with
      | JStr s =>
          match rest with
          | [] => Ok s
          | _ => (let? tail := join_from (S i) sep rest in Ok (s ++ sep ++ tail))%result
          end
      | _ => Raise (Exn TypeError
                      ("sequence item " ++ index_text i
                       ++ ": expected str instance, " ++ type_name v ++ " found"))
      end
  end.

Definition py_join (sep : string) (items : list json) : result string :=
  join_from 0 sep items.

(** Iteration [for x in v]: the items of a list, the keys of a dict, the
    characters of a str; nothing else is iterable. *)
Fixpoint chars_of (s : string) : list json :=
  match s with
  | EmptyString => []
  | String c s' => JStr (String c EmptyString) :: chars_of s'
  end.

Definition py_iter (v : json) : result (list json) :=
  match v with
  | JArr items => Ok items
  | JObj fields => Ok (map (fun kv => JStr (fst kv)) fields)
  | JStr s => Ok (chars_of s)
  | _ => Raise (Exn TypeError ("'" ++ type_name v ++ "' object is not iterable"))
  end.

(** ** Messages, tool calls and the chat endpoint *)

Inductive role_t : Type := system | user | assistant | tool.

(** [ChatCompletionMessageToolCall]: [id], [function.name],
    [function.arguments]. *)
Record tool_call : Type := ToolCall {
  tc_id : string;
  tc_name : string;
  tc_arguments : string
}.

(** One entry of the transcript.  The dict entries built by the program
    carry [role] and [content], tool entries also [tool_call_id] and [name];
    the model's own message, appended as it was received, carries its
    [tool_calls]. *)
Record message : Type := Message {
  role : role_t;
  content : option string;
  tool_calls : option (list tool_call);
  tool_call_id : option string;
  name : option string
}.

(** The message of a completion choice: [content] and [tool_calls], both
    possibly [None]. *)
Record chat_message : Type := ChatMessage {
  cm_content : option string;
  cm_tool_calls : option (list tool_call)
}.

Record chat_completion : Type := ChatCompletion {
  choices : list chat_message
}.

(** The keyword arguments of [client.chat.completions.create]; [tools] and
    [tool_choice] are [None] when the call does not pass them. *)
Record chat_request : Type := ChatRequest {
  req_model : string;
  req_messages : list message;
  req_tools : option (list json);
  req_tool_choice : option string
}.

(** [requests.Response]: the status line and the outcome of [.json()]. *)
Record http_response : Type := HttpResponse {
  status_code : Z;
  reason : string;
  response_json : result json
}.

(** What [console.print] is given: a text with markup, bare or in a
    [Panel] with its [border_style]. *)
Inductive renderable : Type :=
| Markup (text : string)
| Panel (text : string) (border_style : string).

(** What the program sent to the outside world, in order. *)
Inductive event : Type :=
| EvGet (url : string)
| EvChat (request : chat_request)
| EvPrint (line : renderable).

(** ** The environment *)

Record Env : Type := {
  World : Type;
  str_lower : string -> string;                 (* str.lower *)
  str_strip : string -> string;                 (* str.strip *)
  json_loads : string -> result json;           (* json.loads *)
  json_dumps : json -> string;                  (* json.dumps(_, indent=2) *)
  console_print : renderable -> result unit;    (* console.print *)
  requests_get : string -> World -> result http_response * World;
  chat_completions_create :
    chat_request -> World -> result chat_completion * World
}.

Record store (E : Env) : Type := Store {
  messages : list message;
  world : World E;
  trace : list event
}.
Arguments Store {E} _ _ _.
Arguments messages {E} _.
Arguments world {E} _.
Arguments trace {E} _.

(** ** The state-and-exception monad *)

Definition M (E : Env) (A : Type) : Type := store E -> result A * store E.

Definition ret {E A} (a : A) : M E A := fun s => (Ok a, s).

Definition raise {E A} (e : exn) : M E A := fun s => (Raise e, s).

Definition bind {E A B} (m : M E A) (k : A -> M E B) : M E B :=
  fun s => match m s with
           | (Ok a, s') => k a s'
           | (Raise e, s') => (Raise e, s')
           end.

Definition lift {E A} (r : result A) : M E A := fun s => (r, s).

(** [try: body  except Exception as e: handler e]; the store keeps what the
    body did before it raised. *)
Definition try_except {E A} (body : M E A) (handler : exn -> M E A) : M E A :=
  fun s => match body s with
           | (Ok a, s') => (Ok a, s')
           | (Raise e, s') => handler e s'
           end.

Declare Scope agent_scope.
Delimit Scope agent_scope with agent.
Notation "x <- m ;; k" := (bind m (fun x => k))
  (at level 100, m at next level, right associativity) : agent_scope.
Notation "m ;;; k" := (bind m (fun _ => k))
  (at level 100, right associativity) : agent_scope.

(** [s] with one more message. *)
Definition with_message {E} (s : store E) (m : message) : store E :=
  Store (messages s ++ [m])%list (world s) (trace s).

(** [messages.append(m)]. *)
Definition append_message {E} (m : message) : M E unit :=
  fun s => (Ok tt, Store (messages s ++ [m])%list (world s) (trace s)).

Definition get_messages {E} : M E (list message) :=
  fun s => (Ok (messages s), s).

(** [requests.get(url)]: one outbound request, recorded in the trace. *)
Definition http_get {E} (url : string) : M E http_response :=
  fun s => let (r, w) := requests_get E url (world s) in
           (r, Store (messages s) w (trace s ++ [EvGet url])%list).

(** [client.chat.completions.create(...)], recorded in the trace. *)
Definition chat_create {E} (request : chat_request) : M E chat_completion :=
  fun s => let (r, w) := chat_completions_create E request (world s) in
           (r, Store (messages s) w (trace s ++ [EvChat request])%list).

(** [console.print(line)], recorded in the trace whether it returns or
    raises. *)
Definition print {E} (line : renderable) : M E unit :=
  fun s => (console_print E line,
            Store (messages s) (world s) (trace s ++ [EvPrint line])%list).

(** [for x in l: body x]. *)
Fixpoint for_each {E A} (l : list A) (body : A -> M E unit) : M E unit :=
  match l with
  | [] => ret tt
  | x :: rest => (body x ;;; for_each rest body)%agent
  end.

(** * The program *)

Section Agent.

Variable E : Env.

Local Open Scope agent_scope.

(** ** 1. The tool: [get_products_api] *)

Definition url : string := "https://template-03-api.vercel.app/api/products".

Definition status_text (status : Z) : string :=
  NilZero.string_of_int (Z.to_int status).

(** [response.raise_for_status()]: raises an [HTTPError] for bad responses
    (4xx or 5xx). *)
Definition raise_for_status (u : string) (response : http_response) : result unit :=
  let status := status_code response in
  if (400 <=? status)%Z && (status <? 500)%Z then
    Raise (Exn HTTPError (status_text status ++ " Client Error: "
                          ++ reason response ++ " for url: " ++ u))
  else if (500 <=? status)%Z && (status <? 600)%Z then
    Raise (Exn HTTPError (status_text status ++ " Server Error: "
                          ++ reason response ++ " for url: " ++ u))
  else Ok tt.

(** [query.lower()]: only a str has [lower]. *)
Definition py_lower (v : json) : result string :=
  match v with
  | JStr s => Ok (str_lower E s)
  | _ => Raise (Exn AttributeError
                  ("'" ++ type_name v ++ "' object has no attribute 'lower'"))
  end.

(** The text a product is searched in: name, description and category
    joined by single spaces, lower-cased. *)
Definition searchable_text (product : json) : result string :=
  (let? product_name := py_get product "productName" (JStr EmptyString) in
   let? description := py_get product "description" (JStr EmptyString) in
   let? category := py_get product "category" (JStr EmptyString) in
   let? joined := py_join " " [product_name; description; category] in
   Ok (str_lower E joined))%result.

(** The loop [for product in products] with its accumulator
    [filtered_products]. *)
Fixpoint filter_loop (query_lower : string) (products filtered_products : list json)
  : result (list json) :=
  match products with
  | [] => Ok filtered_products
  | product :: rest =>
      (let? text := searchable_text product in
       if str_in query_lower text
       then filter_loop query_lower rest (filtered_products ++ [product])%list
       else filter_loop query_lower rest filtered_products)%result
  end.

(** The block [if query: ...]: the value bound to [products] afterwards. *)
Definition select_products (query products : json) : result json :=
  if truthy query then
    (let? query_lower := py_lower query in
     let? items := py_iter products in
     let? filtered_products := filter_loop query_lower items [] in
     Ok (JArr filtered_products))%result
  else Ok products.

Definition invalid_format_message : string :=
  "API response format invalid: missing 'data' key or not a list.".

(** The body of the [try] once the response body is decoded. *)
Definition catalog_result (query data : json) : result json :=
  (let? has_data := py_in "data" data in
   let? invalid :=
     (if negb has_data then Ok true
      else let? item := py_getitem data "data" in Ok (negb (isinstance_list item))) in
   if (invalid : bool) then
     Ok (JObj [("error", JStr invalid_format_message); ("raw_response", data)])
   else
     let? products := py_getitem data "data" in
     let? products' := select_products query products in
     Ok (JObj [("data", products')]))%result.

Definition get_products_api (query : json) : M E json :=
  try_except
    (response <- http_get url ;;
     lift (raise_for_status url response) ;;;
     data <- lift (response_json response) ;;
     lift (catalog_result query data))
    (fun e =>
       if isinstance_RequestException e then
         ret (JObj [("error", JStr ("Failed to fetch products from API: " ++ exn_str e))])
       else
         ret (JObj [("error", JStr ("An unexpected error occurred: " ++ exn_str e))])).

(** The call of [get_products_api] with the keyword arguments unpacked from
    [args]: [args] must be a mapping and [query] is the only keyword the
    function accepts.  The class of the exception is what the handlers test;
    its text varies with the interpreter, which in recent versions puts the
    module's name before the function's, and no property below depends on
    it. *)
Definition call_get_products_api (args : json) : M E json :=
  match args with
  | JObj fields =>
      match find (fun kv => negb (String.eqb (fst kv) "query")) fields with
      | Some kv =>
          raise (Exn TypeError
                   ("get_products_api() got an unexpected keyword argument '"
                    ++ fst kv ++ "'"))
      | None =>
          get_products_api
            (match dict_get "query" fields with Some v => v | None => JNull end)
      end
  | v =>
      raise (Exn TypeError
               ("get_products_api() argument after ** must be a mapping, not "
                ++ type_name v))
  end.

(** ** 3. The system prompt *)

Definition SYSTEM_PROMPT : string :=
"You are a helpful shopping assistant. Your primary goal is to assist users in finding products.
You have access to a `get_products_api` tool to fetch product information.

When a user asks for products:
1. Call the `get_products_api` tool to get product data.
2. If the user's query contains keywords (like product names, types, or categories), pass that as the 'query' argument to the tool.
3. If no specific product is mentioned, you can call the tool without a 'query' to list general products.
4. Once you have the product data, present up to 5 relevant products to the user.
5. For each product, display its 'productName', 'price' (convert cents to dollars, e.g., 10000 becomes $100.00), and optionally 'description' or 'category' if relevant to the user's query.
6. If no products are found for a specific query, politely inform the user and perhaps suggest some general popular products.
7. Be friendly, concise, and always offer further assistance.
".

(** ** 4. The tool declarations *)

Definition available_tools : list json :=
  [ JObj
      [ ("type", JStr "function");
        ("function",
         JObj
           [ ("name", JStr "get_products_api");
             ("description",
              JStr "Fetch a list of products from an online store, optionally filtered by a search query.");
             ("parameters",
              JObj
                [ ("type", JStr "object");
                  ("properties",
                   JObj
                     [ ("query",
                        JObj
                          [ ("type", JStr "string");
                            ("description",
                             JStr "A keyword or phrase to search for within product names, descriptions, or categories (e.g., 'shoes', 'watch', 'electronics').") ]) ]);
                  ("required", JArr []) ]) ]) ] ].

(** ** 5. The interaction loop: [run_shopping_agent] *)

Definition model : string := "gemini-1.5-flash-latest".

(** A transcript entry written as a dict with [role] and [content]. *)
Definition dict_message (r : role_t) (c : option string) : message :=
  Message r c None None None.

(** The model's message, appended to the transcript as received. *)
Definition as_message (response_message : chat_message) : message :=
  Message assistant (cm_content response_message)
          (cm_tool_calls response_message) None None.

(** [response.choices[0].message]. *)
Definition first_choice (response : chat_completion) : result chat_message :=
  match choices response with
  | c :: _ => Ok c
  | [] => Raise (Exn IndexError "list index out of range")
  end.

(** [json.loads(function_args)]. *)
Definition loads (text : string) : M E json := lift (json_loads E text).

Definition tool_message (tc : tool_call) (tool_output_str : string) : message :=
  Message tool (Some tool_output_str) None (Some (tc_id tc)) (Some (tc_name tc)).

Definition invalid_arguments_error (function_name function_args : string)
  : string :=
  "Agent tried to call " ++ function_name
  ++ " with invalid JSON arguments: " ++ function_args.

Definition invalid_arguments_text (function_name function_args : string) : string :=
  "I encountered an error processing your request: "
  ++ invalid_arguments_error function_name function_args.

Definition tool_failure_error (function_name : string) (e : exn) : string :=
  "Error executing tool " ++ function_name ++ ": " ++ exn_str e.

Definition tool_failure_text (e : exn) : string :=
  "I encountered an error while trying to find products: " ++ exn_str e.

Definition unknown_tool_error (function_name : string) : string :=
  "Unknown tool requested by agent: " ++ function_name.

Definition unknown_tool_text (function_name : string) : string :=
  "I was asked to use an unknown tool (" ++ function_name
  ++ "). Please try again or rephrase your request.".

Definition apology_text : string :=
  "I apologize, but I encountered an error. Could you please try again?".

(** How an f-string shows a content that may be [None]. *)
Definition format_content (c : option string) : string :=
  match c with
  | Some text => text
  | None => "None"
  end.

(** The lines sent to the console. *)
Definition tool_call_line (function_name function_args : string) : renderable :=
  Markup ("[dim]Tool Call: " ++ function_name ++ "(" ++ function_args ++ ")[/dim]").

Definition tool_output_line (tool_output_str : string) : renderable :=
  Markup ("[dim]Tool Output: " ++ tool_output_str ++ "[/dim]").

Definition error_line (error_message : string) : renderable :=
  Markup ("[bold red]Error:[/bold red] " ++ error_message).

Definition answer_panel (agent_response_content : option string) : renderable :=
  Panel ("[green]Agent:[/green] " ++ format_content agent_response_content)
        "green".

Definition failure_panel (e : exn) : renderable :=
  Panel ("[bold red]An unexpected error occurred:[/bold red] " ++ exn_str e)
        "red".

(** The [try] block around the execution of [get_products_api]. *)
Definition execute_tool_call (tc : tool_call) : M E unit :=
  let function_name := tc_name tc in
  let function_args := tc_arguments tc in
  args <- loads function_args ;;
  tool_output <- call_get_products_api args ;;
  let tool_output_str := json_dumps E tool_output in
  print (tool_call_line function_name function_args) ;;;
  print (tool_output_line tool_output_str) ;;;
  append_message (tool_message tc tool_output_str) ;;;
  msgs <- get_messages ;;
  final_response <- chat_create (ChatRequest model msgs None None) ;;
  final_message <- lift (first_choice final_response) ;;
  let agent_response_content := cm_content final_message in
  append_message (dict_message assistant agent_response_content) ;;;
  print (answer_panel agent_response_content).

(** Its two handlers: [except json.JSONDecodeError] and
    [except Exception as e]. *)
Definition report_tool_failure (tc : tool_call) (e : exn) : M E unit :=
  let function_name := tc_name tc in
  let function_args := tc_arguments tc in
  if isinstance_JSONDecodeError e then
    print (error_line (invalid_arguments_error function_name function_args)) ;;;
    append_message
      (dict_message assistant
         (Some (invalid_arguments_text function_name function_args)))
  else
    print (error_line (tool_failure_error function_name e)) ;;;
    append_message (dict_message assistant (Some (tool_failure_text e))).

(** The body of [for tool_call in tool_calls]. *)
Definition dispatch_tool_call (tc : tool_call) : M E unit :=
  let function_name := tc_name tc in
  if String.eqb function_name "get_products_api" then
    try_except (execute_tool_call tc) (report_tool_failure tc)
  else
    print (error_line (unknown_tool_error function_name)) ;;;
    append_message
      (dict_message assistant (Some (unknown_tool_text function_name))).

(** [if tool_calls:] holds for a non-empty list. *)
Definition has_tool_calls (tcs : option (list tool_call)) : bool :=
  match tcs with
  | Some (_ :: _) => true
  | _ => false
  end.

Definition calls_of (tcs : option (list tool_call)) : list tool_call :=
  match tcs with
  | Some l => l
  | None => []
  end.

(** What follows the model's first response: the dispatch of its tool
    calls, or its direct answer. *)
Definition handle_response (response_message : chat_message) : M E unit :=
  let tcs := cm_tool_calls response_message in
  if has_tool_calls tcs then
    append_message (as_message response_message) ;;;
    for_each (calls_of tcs) dispatch_tool_call
  else
    let agent_response_content := cm_content response_message in
    append_message (dict_message assistant agent_response_content) ;;;
    print (answer_panel agent_response_content).

(** The outermost handler, [except Exception as e]. *)
Definition apologize (e : exn) : M E unit :=
  print (failure_panel e) ;;;
  append_message (dict_message assistant (Some apology_text)).

(** The [try] statement of one turn, entered after the user's message was
    appended. *)
Definition agent_turn : M E unit :=
  try_except
    (msgs <- get_messages ;;
     response <- chat_create
                   (ChatRequest model msgs (Some available_tools) (Some "auto")) ;;
     response_message <- lift (first_choice response) ;;
     handle_response response_message)
    apologize.

(** [user_input.strip().lower() in ('exit', 'quit')]. *)
Definition is_exit_command (user_input : string) : bool :=
  let command := str_lower E (str_strip E user_input) in
  String.eqb command "exit" || String.eqb command "quit".

(** [while True:] over the lines the user types; when the input is
    exhausted [console.input] raises [EOFError]. *)
Fixpoint session_loop (inputs : list string) : M E unit :=
  match inputs with
  | [] => raise (Exn EOFError "EOF when reading a line")
  | user_input :: rest =>
      if is_exit_command user_input then ret tt
      else
        append_message (dict_message user (Some user_input)) ;;;
        agent_turn ;;;
        session_loop rest
  end.

Definition run_shopping_agent (inputs : list string) : M E unit :=
  fun s =>
    session_loop inputs
      (Store [dict_message system (Some SYSTEM_PROMPT)] (world s) (trace s)).

End Agent.

(** * A scripted environment

    An environment in which the remote services answer from scripts: each
    [requests.get] consumes the next catalog response, each chat completion
    the next model response.  Strings are read as sequences of code points
    below 256. *)

Module Scripted.

(** [str.lower] on code points below 256: A-Z and the upper-case letters of
    the Latin-1 block move up by 32. *)
Definition lower_char (c : ascii) : ascii :=
  let n := nat_of_ascii c in
  if ((65 <=? n) && (n <=? 90))%nat
     || ((192 <=? n) && (n <=? 214))%nat
     || ((216 <=? n) && (n <=? 222))%nat
  then ascii_of_nat (n + 32)
  else c.

Fixpoint lower (s : string) : string :=
  match s with
  | EmptyString => EmptyString
  | String c s' => String (lower_char c) (lower s')
  end.

(** [str.isspace] on one code point below 256. *)
Definition is_space (c : ascii) : bool :=
  let n := nat_of_ascii c in
  ((9 <=? n) && (n <=? 13))%nat || ((28 <=? n) && (n <=? 32))%nat
  || (n =? 133)%nat || (n =? 160)%nat.

Fixpoint lstrip (s : string) : string :=
  match s with
  | EmptyString => EmptyString
  | String c s' => if is_space c then lstrip s' else s
  end.

Fixpoint rstrip (s : string) : string :=
  match s with
  | EmptyString => EmptyString
  | String c s' =>
      match rstrip s' with
      | EmptyString => if is_space c then EmptyString else String c EmptyString
      | t => String c t
      end
  end.

Definition strip (s : string) : string := rstrip (lstrip s).

Definition quote : string := String (ascii_of_nat 34) EmptyString.

(** The argument payload with a query for shoes, as the model writes it. *)
Definition shoe_arguments : string :=
  "{" ++ quote ++ "query" ++ quote ++ ": " ++ quote ++ "shoe" ++ quote ++ "}".

(** A decoder for the payloads the examples use; every other text is
    rejected, as [json.loads] rejects text that is not JSON. *)
Definition loads_table (text : string) : result json :=
  if String.eqb text "{}" then Ok (JObj [])
  else if String.eqb text shoe_arguments then Ok (JObj [("query", JStr "shoe")])
  else if String.eqb text "[]" then Ok (JArr [])
  else if String.eqb text "null" then Ok JNull
  else Raise (Exn JSONDecodeError "Expecting value: line 1 column 1 (char 0)").

(** The console of the examples: it cannot print a text that holds the
    closing tag [[/oops]], which no text of the program opens. *)
Definition markup_of (line : renderable) : string :=
  match line with
  | Markup text => text
  | Panel text _ => text
  end.

Definition console (line : renderable) : result unit :=
  if str_in "[/oops]" (markup_of line)
  then Raise (Exn OtherException
                "closing tag '[/oops]' doesn't match any open tag")
  else Ok tt.

(** An abbreviated rendering of a catalog result. *)
Definition dumps_brief (v : json) : string :=
  match v with
  | JObj (("data", JArr items) :: _) =>
      "data: " ++ NilZero.string_of_uint (Nat.to_uint (length items)) ++ " products"
  | JObj (("error", JStr text) :: _) => "error: " ++ text
  | _ => "?"
  end.

Record script : Type := Script {
  catalog : list (result http_response);
  replies : list (result chat_completion)
}.

Definition next_catalog (u : string) (w : script) : result http_response * script :=
  match catalog w with
  | r :: rest => (r, Script rest (replies w))
  | [] => (Raise (Exn RequestException "connection refused"), w)
  end.

Definition next_reply (request : chat_request) (w : script)
  : result chat_completion * script :=
  match replies w with
  | r :: rest => (r, Script (catalog w) rest)
  | [] => (Raise (Exn OtherException "connection error"), w)
  end.

Definition env : Env :=
  {| World := script;
     str_lower := lower;
     str_strip := strip;
     json_loads := loads_table;
     json_dumps := dumps_brief;
     console_print := console;
     requests_get := next_catalog;
     chat_completions_create := next_reply |}.

(** The store at the start of a session. *)
Definition start (w : script) : store env :=
  Store (E := env) [dict_message system (Some SYSTEM_PROMPT)] w [].

(** A catalog answer: status 200 with the given decoded body. *)
Definition ok_body (body : json) : result http_response :=
  Ok (HttpResponse 200 "OK" (Ok body)).

Definition shoe : json :=
  JObj [("productName", JStr "Running Shoe"); ("description", JStr "Light");
        ("category", JStr "Footwear"); ("price", JInt 10000)].

Definition watch : json :=
  JObj [("productName", JStr "Watch"); ("category", JStr "Accessories");
        ("price", JInt 25000)].

Definition lamp_without_description : json :=
  JObj [("productName", JStr "Shoe Lamp"); ("description", JNull);
        ("category", JStr "Home")].

(** A model response that requests the given tool calls. *)
Definition asks (tcs : list tool_call) : result chat_completion :=
  Ok (ChatCompletion [ChatMessage None (Some tcs)]).

(** A model response in prose. *)
Definition says (text : string) : result chat_completion :=
  Ok (ChatCompletion [ChatMessage (Some text) None]).

(** ** Scenarios *)

Definition catalog_body (products : list json) : json :=
  JObj [("data", JArr products)].

(** The session has just read the user's line. *)
Definition asked (line : string) (w : script) : store env :=
  with_message (start w) (dict_message user (Some line)).

(** The catalog lists a shoe and a watch. *)
Definition two_products : store env :=
  start (Script [ok_body (catalog_body [shoe; watch])] []).

(** The catalog lists a product whose description is [null]. *)
Definition null_description : store env :=
  start (Script [ok_body (catalog_body [shoe; lamp_without_description])] []).

(** The catalog answers 300 Multiple Choices with a well-formed body. *)
Definition multiple_choices : http_response :=
  HttpResponse 300 "Multiple Choices" (Ok (catalog_body [shoe])).

Definition status_300 : store env := start (Script [Ok multiple_choices] []).

(** The catalog answers 200 with the body [null]. *)
Definition null_body : store env := start (Script [ok_body JNull] []).

(** The catalog answers 200 with [data] bound to a string. *)
Definition data_not_a_list : json := JObj [("data", JStr "not-a-list")].

Definition string_data : store env := start (Script [ok_body data_not_a_list] []).

(** The catalog cannot be reached. *)
Definition unreachable : store env := start (Script [] []).

(** The model asks for a tool that does not exist. *)
Definition price_call : tool_call := ToolCall "x" "lookup_price" "{}".

Definition unknown_tool_turn : store env :=
  asked "how much?" (Script [] [asks [price_call]]).

(** The model asks for an unknown tool with a payload that is not JSON. *)
Definition broken_price_call : tool_call := ToolCall "x" "lookup_price" "{not json".

(** The model asks for the catalog with a payload that is not JSON. *)
Definition broken_catalog_call : tool_call :=
  ToolCall "y" "get_products_api" "{not json".

(** The model asks for the whole catalog, then answers in prose. *)
Definition catalog_call : tool_call := ToolCall "z" "get_products_api" "{}".

Definition catalog_turn : store env :=
  asked "show me all products"
        (Script [ok_body (catalog_body [shoe; watch])]
                [asks [catalog_call]; says "We have a shoe and a watch."]).

(** The call for the catalog is about to be dispatched. *)
Definition pending_call : store env :=
  start (Script [ok_body (catalog_body [shoe; watch])]
                [says "We have a shoe and a watch."]).

(** The model asks for the catalog and the follow-up completion fails. *)
Definition failed_followup_turn : store env :=
  asked "show me all products"
        (Script [ok_body (catalog_body [shoe])]
                [asks [catalog_call];
                 Raise (Exn OtherException "service unavailable")]).

(** The lamp once its description is filled in. *)
Definition shoe_lamp : json :=
  JObj [("productName", JStr "Shoe Lamp"); ("description", JStr "A lamp");
        ("category", JStr "Home")].

(** The catalog answers 200 with a body that is not JSON. *)
Definition undecodable_body : store env :=
  start (Script [Ok (HttpResponse 200 "OK"
                       (Raise (Exn RequestsJSONDecodeError
                                 "Expecting value: line 1 column 1 (char 0)")))]
                []).

(** The model asks for the catalog with a list as payload. *)
Definition list_call : tool_call := ToolCall "l" "get_products_api" "[]".

(** The model answers two lines in prose. *)
Definition prose_session : store env :=
  start (Script [] [says "hello"; says "what can I find for you?"]).

End Scripted.

(** * Vocabulary of the properties *)

(** [l1] is [l2] with some elements left out, the others in their order. *)
Inductive Subsequence {A : Type} : list A -> list A -> Prop :=
| Subsequence_nil : Subsequence [] []
| Subsequence_keep x l1 l2 : Subsequence l1 l2 -> Subsequence (x :: l1) (x :: l2)
| Subsequence_drop x l1 l2 : Subsequence l1 l2 -> Subsequence l1 (x :: l2).

(** [needle] occurs in [hay] as a contiguous block. *)
Definition Substring (needle hay : string) : Prop :=
  exists before after, hay = before ++ needle ++ after.

(** The field of a product read as text: the empty string when missing. *)
Definition text_field (key : string) (fields : list (string * json)) : string :=
  match dict_get key fields with
  | Some (JStr s) => s
  | _ => EmptyString
  end.

(** A field is usable for the search when it is missing or a string. *)
Definition text_or_missing (key : string) (fields : list (string * json)) : bool :=
  match dict_get key fields with
  | Some (JStr _) | None => true
  | Some _ => false
  end.

(** A product the search can read: a mapping whose name, description and
    category, where present, are strings. *)
Definition searchable_product (product : json) : bool :=
  match product with
  | JObj fields =>
      text_or_missing "productName" fields
      && text_or_missing "description" fields
      && text_or_missing "category" fields
  | _ => false
  end.

(** Name, description and category joined by single spaces. *)
Definition joined_fields (product : json) : string :=
  match product with
  | JObj fields =>
      text_field "productName" fields ++ " "
      ++ text_field "description" fields ++ " "
      ++ text_field "category" fields
  | _ => EmptyString
  end.

(** A decoded catalog body of the expected shape: a mapping whose [data]
    is a list. *)
Definition well_formed_body (body : json) : bool :=
  match body with
  | JObj fields =>
      match dict_get "data" fields with
      | Some (JArr _) => true
      | _ => false
      end
  | _ => false
  end.

(** The response passes [raise_for_status]. *)
Definition passes_status (response : http_response) : Prop :=
  (status_code response < 400 \/ 600 <= status_code response)%Z.

Section Vocabulary.

Variable E : Env.

(** A tool call the dispatcher executes: it names the one known tool and its
    payload decodes to a mapping with no key other than [query]. *)
Definition executable (tc : tool_call) : bool :=
  String.eqb (tc_name tc) "get_products_api"
  && match json_loads E (tc_arguments tc) with
     | Ok (JObj fields) =>
         forallb (fun kv => String.eqb (fst kv) "query") fields
     | _ => false
     end.

(** The [query] the decoded payload passes to the tool. *)
Definition query_argument (tc : tool_call) : json :=
  match json_loads E (tc_arguments tc) with
  | Ok (JObj fields) =>
      match dict_get "query" fields with Some v => v | None => JNull end
  | _ => JNull
  end.

(** The first request of a turn: the transcript with the tool declarations. *)
Definition first_request (s : store E) : chat_request :=
  ChatRequest model (messages s) (Some available_tools) (Some "auto").

End Vocabulary.

Definition is_tool_result_for (x : string) (m : message) : bool :=
  match role m, tool_call_id m with
  | tool, Some y => String.eqb x y
  | _, _ => false
  end.

(** Number of tool-result messages that answer the call [x]. *)
Definition count_tool_results (x : string) (transcript : list message) : nat :=
  length (filter (is_tool_result_for x) transcript).

(** Number of executed requests of a response that carry the id [x]. *)
Definition count_executed (E : Env) (x : string) (tcs : list tool_call) : nat :=
  length (filter (fun tc => String.eqb x (tc_id tc) && executable E tc) tcs).


(** The error variant [get_products_api] returns for a caught exception. *)
Definition failure_result (e : exn) : json :=
  JObj [("error",
         JStr ((if isinstance_RequestException e
                then "Failed to fetch products from API: "
                else "An unexpected error occurred: ") ++ exn_str e))].

(** The test the filter applies to a searchable product. *)
Definition matches (E : Env) (query_lower : string) (product : json) : bool :=
  str_in query_lower (str_lower E (joined_fields product)).

(** The value [get_products_api] returns, given what [requests.get] did:
    the outcome of the [try] body with every exception turned into an
    error variant. *)
Definition fetch_value (E : Env) (query : json) (outcome : result http_response)
  : json :=
  match (let? response := outcome in
         let? _ := raise_for_status url response in
         let? data := response_json response in
         catalog_result E query data)%result with
  | Ok v => v
  | Raise e => failure_result e
  end.

(** ** Vocabulary of the further properties *)

(** The three shapes of a catalog result: the products, an error message,
    an error message with the raw body. *)
Definition catalog_variant (v : json) : Prop :=
  (exists P, v = JObj [("data", JArr P)])
  \/ (exists text, v = JObj [("error", JStr text)])
  \/ (exists raw,
        v = JObj [("error", JStr invalid_format_message); ("raw_response", raw)]).

Definition is_get (ev : event) : bool :=
  match ev with
  | EvGet _ => true
  | _ => false
  end.

Definition is_chat (ev : event) : bool :=
  match ev with
  | EvChat _ => true
  | _ => false
  end.

(** The console printed the line, if the event is a print. *)
Definition accepted (E : Env) (ev : event) : Prop :=
  match ev with
  | EvPrint line => console_print E line = Ok tt
  | _ => True
  end.

(** From [s] to [s'] the trace only grew, and the console printed every
    line it was given in between. *)
Definition printed_since {E : Env} (s s' : store E) : Prop :=
  exists events,
    trace s' = (trace s ++ events)%list /\ Forall (accepted E) events.

(** A message the orchestrator writes during a turn. *)
Definition written_by_agent (m : message) : bool :=
  match role m with
  | assistant | tool => true
  | system | user => false
  end.

Definition is_user (m : message) : bool :=
  match role m with
  | user => true
  | _ => false
  end.

(** The contents of the user messages of a transcript, in order. *)
Definition user_lines (transcript : list message) : list (option string) :=
  map content (filter is_user transcript).

(** A request sent while a tool call is dispatched: the catalog address, or
    a completion request for the model without tools. *)
Definition sent_in_dispatch (ev : event) : Prop :=
  match ev with
  | EvGet u => u = url
  | EvChat r =>
      req_model r = model /\ req_tools r = None /\ req_tool_choice r = None
  | EvPrint _ => True
  end.

(** A completion request carries the transcript as it stood when it was
    sent: all of [before] and an initial part of [added]. *)
Definition sees_history (before added : list message) (ev : event) : Prop :=
  match ev with
  | EvChat r =>
      exists pre post,
        req_messages r = (before ++ pre)%list /\ added = (pre ++ post)%list
  | _ => True
  end.

Definition ends_with_assistant (l : list message) : Prop :=
  exists pre final, l = (pre ++ [final])%list /\ role final = assistant.

Definition is_system (m : message) : bool :=
  match role m with
  | system => true
  | _ => false
  end.

(** What the dispatch of the calls [tcs] leaves behind, whatever its
    outcome [r]: messages written by the agent, tool results of executed
    calls only and at most one for each, requests without tools that carry
    the transcript of their moment.  When the console printed every line,
    the dispatch returned and the numbers are exact. *)
Definition dispatch_facts (E : Env) (tcs : list tool_call)
  (before : list message) (r : result unit) (added : list message)
  (events : list event) : Prop :=
  Forall (fun m => written_by_agent m = true) added
  /\ (forall m, In m added -> role m = tool ->
        exists tc, In tc tcs /\ executable E tc = true
                   /\ tool_call_id m = Some (tc_id tc))
  /\ (forall x, count_tool_results x added <= count_executed E x tcs)
  /\ Forall sent_in_dispatch events
  /\ Forall (sees_history before added) events
  /\ (Forall (accepted E) events ->
      r = Ok tt
      /\ (forall x, count_tool_results x added = count_executed E x tcs)
      /\ length added = length tcs + length (filter (executable E) tcs)
      /\ length (filter is_get events) = length (filter (executable E) tcs)
      /\ length (filter is_chat events) = length (filter (executable E) tcs)
      /\ (tcs <> [] -> ends_with_assistant added)).

(** What the handlers of a tool call print and append for the exception
    [e]. *)
Definition report_line (tc : tool_call) (e : exn) : renderable :=
  error_line (if isinstance_JSONDecodeError e
              then invalid_arguments_error (tc_name tc) (tc_arguments tc)
              else tool_failure_error (tc_name tc) e).

Definition report_text (tc : tool_call) (e : exn) : string :=
  if isinstance_JSONDecodeError e
  then invalid_arguments_text (tc_name tc) (tc_arguments tc)
  else tool_failure_text e.

(** [s] with one more event. *)
Definition with_event {E} (s : store E) (ev : event) : store E :=
  Store (messages s) (world s) (trace s ++ [ev])%list.

(** The message and the console line that close the round-trip of an
    executed call, given the outcome of the follow-up completion. *)
Definition closing_message (tc : tool_call) (reply : result chat_completion)
  : message :=
  match reply with
  | Ok response =>
      match choices response with
      | c :: _ => Message assistant (cm_content c) None None None
      | [] =>
          Message assistant
            (Some (report_text tc (Exn IndexError "list index out of range")))
            None None None
      end
  | Raise e => Message assistant (Some (report_text tc e)) None None None
  end.

Definition closing_line (tc : tool_call) (reply : result chat_completion)
  : renderable :=
  match reply with
  | Ok response =>
      match choices response with
      | c :: _ => answer_panel (cm_content c)
      | [] => report_line tc (Exn IndexError "list index out of range")
      end
  | Raise e => report_line tc e
  end.

(** * Strings and lists *)

Lemma prefix_app (n h : string) :
  String.prefix n h = true <-> exists rest, h = n ++ rest.
Proof.
  revert h; induction n as [|c n IH]; intros h; cbn.
  - destruct h; split; eauto.
  - destruct h as [|d h]; cbn.
    + split; [discriminate | intros [rest H]; discriminate].
    + destruct (Ascii.ascii_dec c d) as [->|Hcd].
      * rewrite IH. split; intros [rest H]; exists rest.
        -- now rewrite H.
        -- now injection H.
      * split; [discriminate | intros [rest H]; injection H; congruence].
Qed.

Lemma str_in_unfold (n h : string) :
  str_in n h =
  if String.prefix n h then true
  else match h with
       | EmptyString => false
       | String _ h' => str_in n h'
       end.
Proof. destruct h; reflexivity. Qed.

Lemma str_in_Substring (n h : string) :
  str_in n h = true <-> Substring n h.
Proof.
  unfold Substring. induction h as [|c h IH]; rewrite str_in_unfold.
  - destruct (String.prefix n EmptyString) eqn:Hp.
    + apply prefix_app in Hp as [rest Hp]. split; [|reflexivity].
      intros _. exists EmptyString, rest. exact Hp.
    + split; [discriminate|]. intros (a & b & H).
      destruct a; [|discriminate]. cbn in H.
      assert (String.prefix n EmptyString = true) by (apply prefix_app; eauto).
      congruence.
  - destruct (String.prefix n (String c h)) eqn:Hp.
    + apply prefix_app in Hp as [rest Hp]. split; [|reflexivity].
      intros _. exists EmptyString, rest. exact Hp.
    + rewrite IH. split.
      * intros (a & b & H). exists (String c a), b. cbn. now rewrite H.
      * intros (a & b & H). destruct a as [|d a].
        -- cbn in H.
           assert (String.prefix n (String c h) = true) by (apply prefix_app; eauto).
           congruence.
        -- cbn in H. injection H as _ H. eauto.
Qed.

Lemma Subsequence_filter {A} (f : A -> bool) (l : list A) :
  Subsequence (filter f l) l.
Proof.
  induction l as [|x l IH]; cbn.
  - constructor.
  - destruct (f x); now constructor.
Qed.

Lemma filter_all {A} (f : A -> bool) (l : list A) :
  Forall (fun x => f x = true) l -> filter f l = l.
Proof.
  induction 1 as [|x l Hx _ IH]; cbn; [reflexivity|].
  now rewrite Hx, IH.
Qed.

(** * The catalog client *)

Section Catalog.

Variable E : Env.

Lemma raise_for_status_passes (u : string) (r : http_response) :
  passes_status r -> raise_for_status u r = Ok tt.
Proof.
  unfold passes_status, raise_for_status. intros H.
  destruct (400 <=? status_code r)%Z eqn:H1, (status_code r <? 500)%Z eqn:H2,
           (500 <=? status_code r)%Z eqn:H3, (status_code r <? 600)%Z eqn:H4;
    cbn; try reflexivity; lia.
Qed.

Lemma raise_for_status_bad (u : string) (r : http_response) :
  (400 <= status_code r < 600)%Z ->
  exists text, raise_for_status u r = Raise (Exn HTTPError text).
Proof.
  unfold raise_for_status. intros H.
  destruct (400 <=? status_code r)%Z eqn:H1, (status_code r <? 500)%Z eqn:H2,
           (500 <=? status_code r)%Z eqn:H3, (status_code r <? 600)%Z eqn:H4;
    cbn; eauto; lia.
Qed.

Lemma searchable_text_ok (p : json) :
  searchable_product p = true ->
  searchable_text E p = Ok (str_lower E (joined_fields p)).
Proof.
  destruct p as [| | | | |?|fields]; try discriminate.
  unfold searchable_product, searchable_text, joined_fields, text_or_missing,
    text_field, py_get.
  destruct (dict_get "productName" fields) as [[]|];
    destruct (dict_get "description" fields) as [[]|];
    destruct (dict_get "category" fields) as [[]|];
    cbn; try discriminate; reflexivity.
Qed.

Lemma searchable_text_raises (p : json) :
  searchable_product p = false -> exists e, searchable_text E p = Raise e.
Proof.
  destruct p as [| | | | |?|fields]; try (cbn; eauto; fail).
  unfold searchable_product, searchable_text, text_or_missing, py_get.
  destruct (dict_get "productName" fields) as [[]|];
    destruct (dict_get "description" fields) as [[]|];
    destruct (dict_get "category" fields) as [[]|];
    cbn; try discriminate; eauto.
Qed.

Lemma filter_loop_searchable (ql : string) (products acc : list json) :
  forallb searchable_product products = true ->
  filter_loop E ql products acc = Ok (acc ++ filter (matches E ql) products)%list.
Proof.
  revert acc; induction products as [|p products IH]; intros acc H; cbn.
  - now rewrite app_nil_r.
  - cbn in H. apply andb_true_iff in H as [Hp H].
    rewrite (searchable_text_ok _ Hp). cbn. unfold matches at 1.
    destruct (str_in ql (str_lower E (joined_fields p))).
    + rewrite IH by assumption. now rewrite <- app_assoc.
    + now apply IH.
Qed.

Lemma filter_loop_raises (ql : string) (products acc : list json) :
  forallb searchable_product products = false ->
  exists e, filter_loop E ql products acc = Raise e.
Proof.
  revert acc; induction products as [|p products IH]; intros acc H; cbn.
  - discriminate.
  - cbn in H. destruct (searchable_product p) eqn:Hp.
    + rewrite (searchable_text_ok _ Hp). cbn.
      destruct (str_in ql _); now apply IH.
    + destruct (searchable_text_raises _ Hp) as [e ->]. cbn. eauto.
Qed.

(** What the loop returns is the accumulator followed by products that all
    pass the test. *)
Lemma filter_loop_result (ql : string) (products acc kept : list json) :
  filter_loop E ql products acc = Ok kept ->
  exists added,
    kept = (acc ++ added)%list
    /\ Forall (fun p => exists text,
                   searchable_text E p = Ok text /\ str_in ql text = true) added.
Proof.
  revert acc; induction products as [|p products IH]; intros acc H; cbn in H.
  - injection H as <-. exists []. split; [now rewrite app_nil_r | constructor].
  - destruct (searchable_text E p) as [text|e] eqn:Ht; cbn in H; [|discriminate].
    destruct (str_in ql text) eqn:Hin.
    + apply IH in H as (added & -> & Hall). exists (p :: added). split.
      * now rewrite <- app_assoc.
      * constructor; eauto.
    + now apply IH.
Qed.

Lemma filter_loop_keeps_all (ql : string) (products acc : list json) :
  Forall (fun p => exists text,
              searchable_text E p = Ok text /\ str_in ql text = true) products ->
  filter_loop E ql products acc = Ok (acc ++ products)%list.
Proof.
  intros H; revert acc; induction H as [|p products (text & Ht & Hin) _ IH];
    intros acc; cbn.
  - now rewrite app_nil_r.
  - rewrite Ht. cbn. rewrite Hin, IH. now rewrite <- app_assoc.
Qed.

(** One call: one request to the catalog, a returned value, the transcript
    untouched. *)
Lemma get_products_api_run (q : json) (s : store E) :
  get_products_api E q s =
  (Ok (fetch_value E q (fst (requests_get E url (world s)))),
   Store (messages s) (snd (requests_get E url (world s)))
         (trace s ++ [EvGet url])%list).
Proof.
  unfold get_products_api, try_except, bind, http_get, lift, ret, fetch_value,
    failure_result.
  destruct (requests_get E url (world s)) as [[r|e] w]; cbn.
  - destruct (raise_for_status url r) as [[]|e]; cbn.
    + destruct (response_json r) as [data|e]; cbn.
      * destruct (catalog_result E q data) as [v|e]; cbn; [reflexivity|].
        now destruct (isinstance_RequestException e).
      * now destruct (isinstance_RequestException e).
    + now destruct (isinstance_RequestException e).
  - now destruct (isinstance_RequestException e).
Qed.

Lemma fetch_value_body (q : json) (r : http_response) (body : json) :
  passes_status r -> response_json r = Ok body ->
  fetch_value E q (Ok r) =
  match catalog_result E q body with Ok v => v | Raise e => failure_result e end.
Proof.
  intros Hs Hb. unfold fetch_value. cbn.
  rewrite (raise_for_status_passes url r Hs). cbn. now rewrite Hb.
Qed.

Lemma catalog_result_well_formed (q : json) fields (P : list json) :
  dict_get "data" fields = Some (JArr P) ->
  catalog_result E q (JObj fields) =
  (let? products := select_products E q (JArr P) in
   Ok (JObj [("data", products)]))%result.
Proof.
  intros H. unfold catalog_result, py_in, py_getitem. rewrite H. reflexivity.
Qed.

Lemma catalog_result_ill_formed (q body : json) :
  well_formed_body body = false ->
  (exists e, catalog_result E q body = Raise e)
  \/ catalog_result E q body =
     Ok (JObj [("error", JStr invalid_format_message); ("raw_response", body)]).
Proof.
  intros H. unfold catalog_result.
  destruct body as [| | | |text|items|fields]; cbn; eauto.
  - destruct (str_in "data" text); cbn; eauto.
  - destruct (existsb (str_eq_value "data") items); cbn; eauto.
  - cbn in H. destruct (dict_get "data" fields) as [[]|]; cbn; eauto; discriminate.
Qed.

(** C5 (as amended). A network failure, or a 4xx or 5xx status, makes
    [get_products_api] return the error variant with a descriptive message,
    and [get_products_api] returns a value, without raising, whatever its
    argument and whatever the remote service does. *)
Theorem fetch_failures_are_returned
  (q : json) (s : store E) (outcome : result http_response) (w : World E) :
  requests_get E url (world s) = (outcome, w) ->
  (exists v,
     get_products_api E q s
     = (Ok v, Store (messages s) w (trace s ++ [EvGet url])%list))
  /\ (forall e, outcome = Raise e ->
        fst (get_products_api E q s) = Ok (failure_result e))
  /\ (forall e, outcome = Raise e -> isinstance_RequestException e = true ->
        fst (get_products_api E q s)
        = Ok (JObj [("error",
                     JStr ("Failed to fetch products from API: " ++ exn_str e))]))
  /\ (forall r, outcome = Ok r -> (400 <= status_code r < 600)%Z ->
        exists text,
          fst (get_products_api E q s)
          = Ok (JObj [("error",
                       JStr ("Failed to fetch products from API: " ++ text))])).
Proof.
  intros H. rewrite get_products_api_run, H. cbn.
  split; [eauto|]. split; [|split].
  - now intros e ->.
  - intros e -> He. unfold fetch_value, failure_result. cbn. now rewrite He.
  - intros r -> Hr. unfold fetch_value. cbn.
    destruct (raise_for_status_bad url r Hr) as [text ->]. cbn.
    unfold failure_result. cbn. eauto.
Qed.

(** C6 (as amended). When the decoded catalog body is a mapping whose
    [data] key is missing or is not a list, [get_products_api] returns the
    error variant with the invalid-format message and the raw body under
    [raw_response]; for every other body of the wrong shape it still returns
    an error variant; it never raises. *)
Theorem fetch_rejects_ill_formed_body
  (q : json) (s : store E) (r : http_response) (w : World E) (body : json) :
  requests_get E url (world s) = (Ok r, w) ->
  passes_status r ->
  response_json r = Ok body ->
  well_formed_body body = false ->
  (exists text tail,
     get_products_api E q s
     = (Ok (JObj (("error", JStr text) :: tail)),
        Store (messages s) w (trace s ++ [EvGet url])%list))
  /\ (forall fields, body = JObj fields ->
        fst (get_products_api E q s)
        = Ok (JObj [("error", JStr invalid_format_message);
                    ("raw_response", body)])).
Proof.
  intros H Hs Hb Hw. rewrite get_products_api_run, H. cbn.
  rewrite (fetch_value_body q r _ Hs Hb). split.
  - destruct (catalog_result_ill_formed q body Hw) as [[e ->] | ->].
    + unfold failure_result. eauto.
    + eauto.
  - intros fields ->. cbn in Hw. unfold catalog_result, py_in, py_getitem.
    destruct (dict_get "data" fields) as [[]|]; cbn; try reflexivity; discriminate.
Qed.

(** C7. With an empty or absent query, [get_products_api] returns exactly
    the product list of the catalog body: same products, same order, same
    number. *)
Theorem fetch_without_query_returns_catalog
  (q : json) (s : store E) (r : http_response) (w : World E)
  (fields : list (string * json)) (P : list json) :
  requests_get E url (world s) = (Ok r, w) ->
  passes_status r ->
  response_json r = Ok (JObj fields) ->
  dict_get "data" fields = Some (JArr P) ->
  q = JNull \/ q = JStr EmptyString ->
  get_products_api E q s
  = (Ok (JObj [("data", JArr P)]),
     Store (messages s) w (trace s ++ [EvGet url])%list).
Proof.
  intros H Hs Hb Hd Hq. rewrite get_products_api_run, H. cbn.
  rewrite (fetch_value_body q r _ Hs Hb), (catalog_result_well_formed q _ _ Hd).
  destruct Hq as [-> | ->]; reflexivity.
Qed.

(** C1 (as amended). For a non-empty query string and a product list whose
    elements are mappings with string (or missing) name, description and
    category, [get_products_api] returns the products whose searchable text
    contains the lower-cased query, in their original order; when some
    element is not such a mapping it returns the error variant. *)
Theorem fetch_with_query_filters_catalog
  (q : string) (s : store E) (r : http_response) (w : World E)
  (fields : list (string * json)) (P : list json) :
  q <> EmptyString ->
  requests_get E url (world s) = (Ok r, w) ->
  passes_status r ->
  response_json r = Ok (JObj fields) ->
  dict_get "data" fields = Some (JArr P) ->
  (forallb searchable_product P = true ->
   exists R,
     fst (get_products_api E (JStr q) s) = Ok (JObj [("data", JArr R)])
     /\ R = filter (matches E (str_lower E q)) P
     /\ Subsequence R P
     /\ forall p,
          In p R <->
          In p P /\ Substring (str_lower E q) (str_lower E (joined_fields p)))
  /\ (forallb searchable_product P = false ->
      exists text,
        fst (get_products_api E (JStr q) s) = Ok (JObj [("error", JStr text)])).
Proof.
  intros Hq H Hs Hb Hd. rewrite get_products_api_run, H. cbn.
  rewrite (fetch_value_body (JStr q) r _ Hs Hb),
    (catalog_result_well_formed (JStr q) _ _ Hd).
  assert (Ht : truthy (JStr q) = true).
  { cbn. destruct (String.eqb_spec q EmptyString); [contradiction | reflexivity]. }
  unfold select_products. rewrite Ht. cbn. split; intros HP.
  - rewrite (filter_loop_searchable (str_lower E q) P [] HP). cbn.
    eexists; split; [reflexivity|]. split; [reflexivity|].
    split; [apply Subsequence_filter|].
    intros p. rewrite filter_In. unfold matches. now rewrite str_in_Substring.
  - destruct (filter_loop_raises (str_lower E q) P [] HP) as [e ->]. cbn.
    unfold failure_result. eauto.
Qed.

(** C10. Filtering is idempotent: selecting with the same query from what
    a selection returned gives the same products (and a selection that
    raised stays raised). *)
Theorem select_products_idempotent (q products : json) :
  rbind (select_products E q products) (select_products E q)
  = select_products E q products.
Proof.
  unfold select_products at 1 3. destruct (truthy q) eqn:Ht; cbn.
  - destruct (py_lower E q) as [ql|e] eqn:Hl; cbn; [|reflexivity].
    destruct (py_iter products) as [items|e]; cbn; [|reflexivity].
    destruct (filter_loop E ql items []) as [kept|e] eqn:Hk; cbn; [|reflexivity].
    unfold select_products. rewrite Ht, Hl. cbn.
    apply filter_loop_result in Hk as (added & -> & Hall). cbn.
    now rewrite (filter_loop_keeps_all ql added [] Hall).
  - unfold select_products. now rewrite Ht.
Qed.

End Catalog.

(** * The orchestrator *)

Section Orchestrator.

Variable E : Env.

Lemma only_query_keys (fields : list (string * json)) :
  forallb (fun kv => String.eqb (fst kv) "query") fields = true ->
  find (fun kv => negb (String.eqb (fst kv) "query")) fields = None.
Proof.
  induction fields as [|kv fields IH]; cbn; [reflexivity|].
  intros H. apply andb_true_iff in H as [-> H]. cbn. now apply IH.
Qed.

Lemma other_key_found (fields : list (string * json)) :
  forallb (fun kv => String.eqb (fst kv) "query") fields = false ->
  exists kv, find (fun kv => negb (String.eqb (fst kv) "query")) fields = Some kv.
Proof.
  induction fields as [|kv fields IH]; cbn; [discriminate|].
  destruct (String.eqb (fst kv) "query"); cbn; eauto.
Qed.

(** The handlers of a tool call: the line is printed, then the message is
    appended; when the print raises nothing is appended. *)
Lemma report_tool_failure_run (tc : tool_call) (e : exn) (s : store E) :
  report_tool_failure E tc e s =
  match console_print E (report_line tc e) with
  | Ok _ =>
      (Ok tt,
       Store (messages s
              ++ [Message assistant (Some (report_text tc e)) None None None])%list
             (world s) (trace s ++ [EvPrint (report_line tc e)])%list)
  | Raise e' => (Raise e', with_event s (EvPrint (report_line tc e)))
  end.
Proof.
  unfold report_tool_failure, report_line, report_text, bind, print,
    append_message, with_event, dict_message.
  destruct (isinstance_JSONDecodeError e);
    destruct (console_print E _) as [[]|e']; reflexivity.
Qed.

(** The outermost handler likewise. *)
Lemma apologize_run (e : exn) (s : store E) :
  apologize E e s =
  match console_print E (failure_panel e) with
  | Ok _ =>
      (Ok tt,
       Store (messages s
              ++ [Message assistant (Some apology_text) None None None])%list
             (world s) (trace s ++ [EvPrint (failure_panel e)])%list)
  | Raise e' => (Raise e', with_event s (EvPrint (failure_panel e)))
  end.
Proof.
  unfold apologize, bind, print, append_message, with_event, dict_message.
  destruct (console_print E _) as [[]|e']; reflexivity.
Qed.

(** A call that is not executable raises before anything is printed, sent
    or appended. *)
Lemma execute_not_executable (tc : tool_call) (s : store E) :
  tc_name tc = "get_products_api" ->
  executable E tc = false ->
  exists e, execute_tool_call E tc s = (Raise e, s).
Proof.
  unfold executable, execute_tool_call. intros -> H. cbn in H.
  unfold bind, loads, lift.
  destruct (json_loads E (tc_arguments tc)) as [[| | | | | |fields]|e];
    cbn; eauto.
  destruct (other_key_found fields H) as [kv ->]. cbn. eauto.
Qed.

(** The execution of an executable call, step by step. *)
Lemma execute_executable (tc : tool_call) (s : store E) :
  executable E tc = true ->
  let fetched := requests_get E url (world s) in
  let out := json_dumps E (fetch_value E (query_argument E tc) (fst fetched)) in
  let l1 := tool_call_line (tc_name tc) (tc_arguments tc) in
  let l2 := tool_output_line out in
  let tm := Message tool (Some out) None (Some (tc_id tc)) (Some (tc_name tc)) in
  let req := ChatRequest model (messages s ++ [tm])%list None None in
  let reply := chat_completions_create E req (snd fetched) in
  execute_tool_call E tc s =
  match console_print E l1 with
  | Raise e =>
      (Raise e,
       Store (messages s) (snd fetched) (trace s ++ [EvGet url; EvPrint l1])%list)
  | Ok _ =>
      match console_print E l2 with
      | Raise e =>
          (Raise e,
           Store (messages s) (snd fetched)
                 (trace s ++ [EvGet url; EvPrint l1; EvPrint l2])%list)
      | Ok _ =>
          match fst reply with
          | Raise e =>
              (Raise e,
               Store (messages s ++ [tm])%list (snd reply)
                     (trace s ++ [EvGet url; EvPrint l1; EvPrint l2; EvChat req])%list)
          | Ok response =>
              match choices response with
              | [] =>
                  (Raise (Exn IndexError "list index out of range"),
                   Store (messages s ++ [tm])%list (snd reply)
                         (trace s
                          ++ [EvGet url; EvPrint l1; EvPrint l2; EvChat req])%list)
              | c :: _ =>
                  (console_print E (answer_panel (cm_content c)),
                   Store (messages s
                          ++ [tm; Message assistant (cm_content c) None None None])%list
                         (snd reply)
                         (trace s
                          ++ [EvGet url; EvPrint l1; EvPrint l2; EvChat req;
                              EvPrint (answer_panel (cm_content c))])%list)
              end
          end
      end
  end.
Proof.
  unfold executable, query_argument. intros H.
  apply andb_true_iff in H as [Hname H]. cbv zeta.
  unfold execute_tool_call, bind, loads, lift.
  destruct (json_loads E (tc_arguments tc)) as [[| | | | | |fields]|e];
    try discriminate.
  cbn. rewrite (only_query_keys fields H), get_products_api_run.
  unfold print, chat_create, get_messages, append_message, lift, first_choice,
    tool_message, dict_message. cbn.
  destruct (console_print E (tool_call_line _ _)) as [[]|e1]; cbn;
    [|now rewrite <- !app_assoc].
  destruct (console_print E (tool_output_line _)) as [[]|e2]; cbn;
    [|now rewrite <- !app_assoc].
  destruct (chat_completions_create E _ _) as [[response|e3] w2]; cbn;
    [|now rewrite <- !app_assoc].
  destruct (choices response) as [|c more]; cbn; now rewrite <- !app_assoc.
Qed.

Lemma count_tool_results_app (x : string) (l1 l2 : list message) :
  count_tool_results x (l1 ++ l2)
  = count_tool_results x l1 + count_tool_results x l2.
Proof. unfold count_tool_results. now rewrite filter_app, length_app. Qed.

Lemma count_executed_cons (x : string) (tc : tool_call) (tcs : list tool_call) :
  count_executed E x (tc :: tcs)
  = count_executed E x [tc] + count_executed E x tcs.
Proof.
  unfold count_executed. cbn.
  now destruct (String.eqb x (tc_id tc) && executable E tc).
Qed.

Lemma Forall_accepted_inv (ev : event) (events : list event) :
  Forall (accepted E) (ev :: events) ->
  accepted E ev /\ Forall (accepted E) events.
Proof. intros H. inversion H; subst. now split. Qed.

(** The facts of a step that appended and sent nothing but one report. *)
Lemma facts_of_report (tc : tool_call) (before : list message) (text : string)
  (line : renderable) :
  executable E tc = false ->
  dispatch_facts E [tc] before (Ok tt)
    [Message assistant (Some text) None None None] [EvPrint line].
Proof.
  intros Hx. unfold dispatch_facts, count_tool_results, count_executed. cbn.
  rewrite Hx.
  split; [repeat constructor|]. split.
  { intros m [<- | []] Hr. discriminate. }
  split; [intros x; lia|]. split; [repeat constructor|].
  split; [repeat constructor|]. intros _.
  split; [reflexivity|]. split; [intros x; now rewrite andb_false_r|].
  repeat (split; [reflexivity|]).
  intros _. exists [], (Message assistant (Some text) None None None). now split.
Qed.

(** The facts of a step that one of its prints ended. *)
Lemma facts_of_failed_print (tc : tool_call) (before added : list message)
  (events : list event) :
  Forall (fun m => written_by_agent m = true) added ->
  (forall m, In m added -> role m = tool ->
             executable E tc = true /\ tool_call_id m = Some (tc_id tc)) ->
  (forall x, count_tool_results x added <= count_executed E x [tc]) ->
  Forall sent_in_dispatch events ->
  Forall (sees_history before added) events ->
  ~ Forall (accepted E) events ->
  forall r, dispatch_facts E [tc] before r added events.
Proof.
  intros W T C S H N r. unfold dispatch_facts.
  split; [exact W|]. split.
  { intros m Hin Hr. destruct (T m Hin Hr) as [Hx Hid].
    exists tc. split; [now left | now split]. }
  split; [exact C|]. split; [exact S|]. split; [exact H|].
  intros Hacc. contradiction.
Qed.

(** The facts of an executed call that ran to its end. *)
Lemma facts_of_executed (tc : tool_call) (before : list message) (out : string)
  (final : message) (l1 l2 l3 : renderable) :
  executable E tc = true ->
  role final = assistant ->
  let tm := Message tool (Some out) None (Some (tc_id tc)) (Some (tc_name tc)) in
  dispatch_facts E [tc] before (Ok tt) [tm; final]
    [EvGet url; EvPrint l1; EvPrint l2;
     EvChat (ChatRequest model (before ++ [tm])%list None None); EvPrint l3].
Proof.
  intros Hx Hf. cbv zeta.
  unfold dispatch_facts, count_tool_results, count_executed, is_tool_result_for.
  cbn. rewrite Hx, Hf.
  split.
  { constructor; [reflexivity|]. constructor; [|constructor].
    unfold written_by_agent. now rewrite Hf. }
  split.
  { intros m [<- | [<- | []]] Hr; [|congruence].
    exists tc. split; [now left | now split]. }
  split.
  { intros x. rewrite andb_true_r. now destruct (String.eqb x (tc_id tc)). }
  split; [repeat constructor|]. split.
  { repeat constructor. cbn. eexists [_], [_]. split; reflexivity. }
  intros _. split; [reflexivity|]. split.
  { intros x. rewrite andb_true_r. now destruct (String.eqb x (tc_id tc)). }
  repeat (split; [reflexivity|]).
  intros _. eexists [_], final. now split.
Qed.

Ltac not_accepted :=
  let H := fresh "H" in
  intros H;
  repeat (apply Forall_accepted_inv in H as [? H]);
  cbn [accepted] in *; congruence.

Ltac step_parts Hx :=
  repeat match goal with
    | |- Forall _ _ => repeat constructor
    | |- forall m, In m _ -> role m = tool -> _ =>
        let m := fresh "m" in
        let Hin := fresh "Hin" in
        let Hr := fresh "Hr" in
        intros m Hin Hr; cbn in Hin;
        repeat (destruct Hin as [Hin | Hin]; [subst m|]);
        try contradiction; try discriminate Hr; now split
    | |- forall x, count_tool_results x _ <= _ =>
        let x := fresh "x" in
        intros x; unfold count_tool_results, count_executed, is_tool_result_for;
        cbn; rewrite ?Hx, ?andb_true_r, ?andb_false_r;
        try (destruct (String.eqb x _)); cbn; lia
    end.

Ltac step_lists :=
  eexists; eexists; eexists; eexists;
  (split; [reflexivity|]); cbn [messages trace];
  (split; [try reflexivity; try (symmetry; apply app_nil_r);
           rewrite <- ?app_assoc; reflexivity|]);
  (split; [rewrite <- ?app_assoc; reflexivity|]); cbn [app].

Ltac step_failed Hx :=
  step_lists; apply facts_of_failed_print;
  [ step_parts Hx | step_parts Hx | step_parts Hx | repeat constructor
  | repeat constructor; cbn; eexists [_], _; split; reflexivity
  | not_accepted ].

(** One dispatch step. *)
Lemma dispatch_step_facts (tc : tool_call) (s : store E) :
  exists r s' added events,
    dispatch_tool_call E tc s = (r, s')
    /\ messages s' = (messages s ++ added)%list
    /\ trace s' = (trace s ++ events)%list
    /\ dispatch_facts E [tc] (messages s) r added events.
Proof.
  unfold dispatch_tool_call.
  destruct (String.eqb_spec (tc_name tc) "get_products_api") as [Hn|Hn].
  - destruct (executable E tc) eqn:Hx.
    + unfold try_except. rewrite (execute_executable tc s Hx). cbv zeta.
      destruct (console_print E (tool_call_line _ _)) as [[]|e1] eqn:P1.
      2: { rewrite report_tool_failure_run. unfold with_event.
           cbn [messages world trace].
           destruct (console_print E (report_line tc e1)) as [[]|e'] eqn:Pr;
             step_failed Hx. }
      destruct (console_print E (tool_output_line _)) as [[]|e2] eqn:P2.
      2: { rewrite report_tool_failure_run. unfold with_event.
           cbn [messages world trace].
           destruct (console_print E (report_line tc e2)) as [[]|e'] eqn:Pr;
             step_failed Hx. }
      destruct (chat_completions_create E _ _) as [[response|e3] w2]; cbn [fst snd].
      2: { rewrite report_tool_failure_run. unfold with_event.
           cbn [messages world trace].
           destruct (console_print E (report_line tc e3)) as [[]|e'] eqn:Pr.
           - step_lists. now apply facts_of_executed.
           - step_failed Hx. }
      destruct (choices response) as [|c more].
      { rewrite report_tool_failure_run. unfold with_event.
        cbn [messages world trace].
        destruct (console_print E (report_line tc _)) as [[]|e'] eqn:Pr.
        - step_lists. now apply facts_of_executed.
        - step_failed Hx. }
      destruct (console_print E (answer_panel _)) as [[]|e4] eqn:P4.
      * step_lists. now apply facts_of_executed.
      * rewrite report_tool_failure_run. unfold with_event.
        cbn [messages world trace].
        destruct (console_print E (report_line tc e4)) as [[]|e'] eqn:Pr;
          step_failed Hx.
    + destruct (execute_not_executable tc s Hn Hx) as [e He].
      unfold try_except. rewrite He, report_tool_failure_run. unfold with_event.
      destruct (console_print E (report_line tc e)) as [[]|e'] eqn:Pr.
      * step_lists. now apply facts_of_report.
      * step_failed Hx.
  - assert (Hx : executable E tc = false).
    { unfold executable.
      destruct (String.eqb_spec (tc_name tc) "get_products_api");
        [contradiction | reflexivity]. }
    unfold bind, print, append_message, dict_message.
    destruct (console_print E _) as [[]|e'] eqn:Pr.
    + step_lists. now apply facts_of_report.
    + step_failed Hx.
Qed.

Lemma sees_history_later (before a1 a2 : list message) (ev : event) :
  sees_history before a1 ev -> sees_history before (a1 ++ a2)%list ev.
Proof.
  destruct ev as [u|r|l]; cbn; trivial.
  intros (pre & post & Hr & ->). exists pre, (post ++ a2)%list.
  split; [exact Hr | now rewrite app_assoc].
Qed.

Lemma sees_history_earlier (before a1 a2 : list message) (ev : event) :
  sees_history (before ++ a1)%list a2 ev -> sees_history before (a1 ++ a2)%list ev.
Proof.
  destruct ev as [u|r|l]; cbn; trivial.
  intros (pre & post & Hr & ->). exists (a1 ++ pre)%list, post.
  split; [now rewrite Hr, app_assoc | now rewrite app_assoc].
Qed.

Lemma count_executed_le_cons (x : string) (tc : tool_call) (tcs : list tool_call) :
  count_executed E x [tc] <= count_executed E x (tc :: tcs).
Proof. rewrite (count_executed_cons x tc tcs). lia. Qed.

Lemma dispatch_facts_nil (before : list message) :
  dispatch_facts E [] before (Ok tt) [] [].
Proof.
  unfold dispatch_facts. cbn.
  split; [constructor|]. split; [intros m []|]. split; [intros x; lia|].
  split; [constructor|]. split; [constructor|]. intros _.
  repeat (split; [reflexivity|]). congruence.
Qed.

Lemma dispatch_facts_cons_ok (tc : tool_call) (rest : list tool_call)
  (before a1 a2 : list message) (e1 e2 : list event) (r : result unit) :
  dispatch_facts E [tc] before (Ok tt) a1 e1 ->
  dispatch_facts E rest (before ++ a1)%list r a2 e2 ->
  dispatch_facts E (tc :: rest) before r (a1 ++ a2)%list (e1 ++ e2)%list.
Proof.
  intros (W1 & T1 & C1 & S1 & H1 & X1) (W2 & T2 & C2 & S2 & H2 & X2).
  unfold dispatch_facts.
  split; [now apply Forall_app|]. split.
  { intros m Hin Hr. apply in_app_or in Hin as [Hin|Hin].
    - destruct (T1 m Hin Hr) as (tc' & [<- | []] & Hx & Hid).
      exists tc. split; [now left | now split].
    - destruct (T2 m Hin Hr) as (tc' & Hin' & Hx & Hid).
      exists tc'. split; [now right | now split]. }
  split.
  { intros x. rewrite count_tool_results_app, (count_executed_cons x tc rest).
    specialize (C1 x). specialize (C2 x). lia. }
  split; [now apply Forall_app|]. split.
  { apply Forall_app. split.
    - eapply Forall_impl; [|exact H1]. intros ev. apply sees_history_later.
    - eapply Forall_impl; [|exact H2]. intros ev. apply sees_history_earlier. }
  intros Hacc. apply Forall_app in Hacc as [A1 A2].
  destruct (X1 A1) as (_ & Q1 & L1 & G1 & K1 & N1).
  destruct (X2 A2) as (-> & Q2 & L2 & G2 & K2 & N2).
  split; [reflexivity|]. split.
  { intros x. now rewrite count_tool_results_app, Q1, Q2,
      (count_executed_cons x tc rest). }
  rewrite !filter_app, !length_app, L1, L2, G1, G2, K1, K2. cbn [filter length].
  destruct (executable E tc); cbn [length]; (split; [lia|]);
    (split; [lia|]); (split; [lia|]); intros _.
  all: destruct rest as [|tc2 rest];
    [ cbn in L2; destruct a2; [|discriminate L2]; rewrite app_nil_r;
      apply N1; discriminate
    | destruct N2 as (pre & final & -> & Hf); [discriminate|];
      exists (a1 ++ pre)%list, final; split; [now rewrite app_assoc | exact Hf] ].
Qed.

Lemma dispatch_facts_cons_raise (tc : tool_call) (rest : list tool_call)
  (before a1 : list message) (e1 : list event) (e : exn) :
  dispatch_facts E [tc] before (Raise e) a1 e1 ->
  dispatch_facts E (tc :: rest) before (Raise e) a1 e1.
Proof.
  intros (W1 & T1 & C1 & S1 & H1 & X1). unfold dispatch_facts.
  split; [exact W1|]. split.
  { intros m Hin Hr. destruct (T1 m Hin Hr) as (tc' & [<- | []] & Hx & Hid).
    exists tc. split; [now left | now split]. }
  split.
  { intros x. specialize (C1 x).
    pose proof (count_executed_le_cons x tc rest). lia. }
  split; [exact S1|]. split; [exact H1|].
  intros Hacc. destruct (X1 Hacc) as [Hr _]. discriminate Hr.
Qed.

(** The whole loop over the requested calls. *)
Lemma dispatch_all_facts (tcs : list tool_call) (s : store E) :
  exists r s' added events,
    for_each tcs (dispatch_tool_call E) s = (r, s')
    /\ messages s' = (messages s ++ added)%list
    /\ trace s' = (trace s ++ events)%list
    /\ dispatch_facts E tcs (messages s) r added events.
Proof.
  revert s; induction tcs as [|tc tcs IH]; intros s.
  - exists (Ok tt), s, [], []. cbn. rewrite !app_nil_r.
    repeat (split; [reflexivity|]). apply dispatch_facts_nil.
  - destruct (dispatch_step_facts tc s) as (r1 & s1 & a1 & e1 & R1 & M1 & T1 & F1).
    cbn [for_each]. unfold bind at 1. rewrite R1.
    destruct r1 as [[]|e].
    + destruct (IH s1) as (r2 & s2 & a2 & e2 & R2 & M2 & T2 & F2).
      exists r2, s2, (a1 ++ a2)%list, (e1 ++ e2)%list.
      split; [exact R2|]. split; [now rewrite M2, M1, app_assoc|].
      split; [now rewrite T2, T1, app_assoc|].
      rewrite M1 in F2. now apply dispatch_facts_cons_ok.
    + exists (Raise e), s1, a1, e1. repeat (split; [assumption || reflexivity|]).
      now apply dispatch_facts_cons_raise.
Qed.

(** What the outermost handler adds after the dispatch raised. *)
Lemma dispatch_facts_apologize (tcs : list tool_call) (before added : list message)
  (events : list event) (e : exn) (r : result unit) (extra : list message)
  (line : renderable) :
  dispatch_facts E tcs before (Raise e) added events ->
  Forall (fun m => role m = assistant) extra ->
  dispatch_facts E tcs before r (added ++ extra)%list (events ++ [EvPrint line])%list.
Proof.
  intros (W & T & C & S & H & X) Hextra. unfold dispatch_facts.
  assert (Hc : forall x, count_tool_results x extra = 0).
  { intros x. unfold count_tool_results, is_tool_result_for.
    induction Hextra as [|m l Hm _ IH]; cbn; [reflexivity|]. now rewrite Hm. }
  split.
  { apply Forall_app. split; [exact W|]. eapply Forall_impl; [|exact Hextra].
    intros m Hm. unfold written_by_agent. now rewrite Hm. }
  split.
  { intros m Hin Hr. apply in_app_or in Hin as [Hin|Hin]; [now apply T|].
    rewrite Forall_forall in Hextra. rewrite (Hextra m Hin) in Hr. discriminate. }
  split.
  { intros x. rewrite count_tool_results_app, Hc. specialize (C x). lia. }
  split; [apply Forall_app; split; [exact S | repeat constructor]|]. split.
  { apply Forall_app. split; [|repeat constructor].
    eapply Forall_impl; [|exact H]. intros ev. apply sees_history_later. }
  intros Hacc. apply Forall_app in Hacc as [A _].
  destruct (X A) as [Hr _]. discriminate Hr.
Qed.

(** One turn, up to the model's first response. *)
Lemma agent_turn_run (s : store E) :
  let reply := chat_completions_create E (first_request E s) (world s) in
  let s1 := Store (messages s) (snd reply)
                  (trace s ++ [EvChat (first_request E s)])%list in
  agent_turn E s =
  match fst reply with
  | Raise e => apologize E e s1
  | Ok response =>
      match choices response with
      | [] => apologize E (Exn IndexError "list index out of range") s1
      | response_message :: _ =>
          try_except (handle_response E response_message) (apologize E) s1
      end
  end.
Proof.
  cbv zeta. unfold agent_turn, try_except, bind, get_messages, chat_create,
    first_request.
  destruct (chat_completions_create E _ (world s)) as [[response|e] w]; cbn;
    [|reflexivity].
  unfold first_choice, lift. now destruct (choices response) as [|rm more].
Qed.

Lemma printed_since_events (s s' : store E) (events : list event) :
  trace s' = (trace s ++ events)%list ->
  printed_since s s' -> Forall (accepted E) events.
Proof.
  intros H (events' & H' & Hacc). rewrite H in H'.
  apply app_inv_head in H'. now subst.
Qed.

(** A turn in which the model requests tool calls. *)
Lemma agent_turn_tool_calls
  (s : store E) (response : chat_completion) (w : World E)
  (response_message : chat_message) (more : list chat_message)
  (tcs : list tool_call) :
  chat_completions_create E (first_request E s) (world s) = (Ok response, w) ->
  choices response = response_message :: more ->
  cm_tool_calls response_message = Some tcs ->
  tcs <> [] ->
  let am := Message assistant (cm_content response_message) (Some tcs) None None in
  exists r s' added later,
    agent_turn E s = (r, s')
    /\ messages s' = (messages s ++ am :: added)%list
    /\ trace s' = (trace s ++ EvChat (first_request E s) :: later)%list
    /\ dispatch_facts E tcs (messages s ++ [am])%list r added later.
Proof.
  intros H Hc Ht Hne. cbv zeta. rewrite agent_turn_run. cbv zeta.
  rewrite H. cbn [fst snd]. rewrite Hc.
  unfold try_except, handle_response. rewrite Ht.
  destruct tcs as [|tc tcs]; [contradiction|]. cbn [has_tool_calls calls_of].
  unfold bind at 1, append_message, as_message. rewrite Ht.
  cbn [messages world trace].
  match goal with
  | |- context [for_each ?l ?f ?st] =>
      destruct (dispatch_all_facts l st) as (r0 & s0 & a0 & e0 & R & M & T & F)
  end.
  rewrite R. cbn [messages trace] in M, T, F.
  destruct r0 as [[]|e].
  - exists (Ok tt), s0, a0, e0. split; [reflexivity|].
    split; [now rewrite M, <- app_assoc|]. split; [now rewrite T, <- app_assoc|].
    exact F.
  - rewrite apologize_run. unfold with_event.
    destruct (console_print E (failure_panel e)) as [[]|e'].
    + eexists; eexists; eexists (a0 ++ [_])%list; eexists (e0 ++ [_])%list.
      split; [reflexivity|]. cbn [messages trace].
      split; [now rewrite M, <- !app_assoc|].
      split; [now rewrite T, <- !app_assoc|].
      apply (dispatch_facts_apologize _ _ _ _ e); [exact F|].
      now repeat constructor.
    + eexists; eexists; exists (a0 ++ [])%list; eexists (e0 ++ [_])%list.
      split; [reflexivity|]. cbn [messages trace].
      split; [now rewrite M, app_nil_r, <- !app_assoc|].
      split; [now rewrite T, <- !app_assoc|].
      apply (dispatch_facts_apologize _ _ _ _ e); [exact F | constructor].
Qed.

(** One turn, whatever its outcome. *)
Lemma agent_turn_facts (s : store E) :
  exists r s' added later,
    agent_turn E s = (r, s')
    /\ messages s' = (messages s ++ added)%list
    /\ trace s' = (trace s ++ EvChat (first_request E s) :: later)%list
    /\ Forall (fun m => written_by_agent m = true) added
    /\ Forall sent_in_dispatch later
    /\ Forall (sees_history (messages s) added) later
    /\ (Forall (accepted E) later -> r = Ok tt /\ ends_with_assistant added).
Proof.
  assert (Hap : forall e w,
    exists r s' added later,
      apologize E e
        (Store (messages s) w (trace s ++ [EvChat (first_request E s)])%list)
      = (r, s')
      /\ messages s' = (messages s ++ added)%list
      /\ trace s' = (trace s ++ EvChat (first_request E s) :: later)%list
      /\ Forall (fun m => written_by_agent m = true) added
      /\ Forall sent_in_dispatch later
      /\ Forall (sees_history (messages s) added) later
      /\ (Forall (accepted E) later -> r = Ok tt /\ ends_with_assistant added)).
  { intros e w. rewrite apologize_run. unfold with_event.
    destruct (console_print E (failure_panel e)) as [[]|e'] eqn:Pe.
    - eexists; eexists; eexists [_]; exists [EvPrint (failure_panel e)].
      split; [reflexivity|]. cbn [messages trace].
      split; [reflexivity|]. split; [now rewrite <- app_assoc|].
      split; [now repeat constructor|]. split; [now repeat constructor|].
      split; [now repeat constructor|]. intros _. split; [reflexivity|].
      eexists [], _. now split.
    - eexists; eexists; exists []; exists [EvPrint (failure_panel e)].
      split; [reflexivity|]. cbn [messages trace].
      split; [now rewrite app_nil_r|]. split; [now rewrite <- app_assoc|].
      split; [constructor|]. split; [now repeat constructor|].
      split; [now repeat constructor|]. not_accepted. }
  destruct (chat_completions_create E (first_request E s) (world s))
    as [[response|e] w] eqn:Hchat.
  2: { rewrite agent_turn_run. cbv zeta. rewrite Hchat. apply Hap. }
  destruct (choices response) as [|rm more] eqn:Hc.
  { rewrite agent_turn_run. cbv zeta. rewrite Hchat. cbn [fst snd]. rewrite Hc.
    apply Hap. }
  destruct (cm_tool_calls rm) as [[|tc tcs]|] eqn:Ht.
  2: { destruct (agent_turn_tool_calls s _ _ _ _ _ Hchat Hc Ht)
         as (r & s' & added & later & R & M & T & W & _ & _ & S & H & X);
         [discriminate|].
       exists r, s', (Message assistant (cm_content rm) (Some (tc :: tcs)) None None
                      :: added), later.
       split; [exact R|]. split; [exact M|]. split; [exact T|].
       split; [constructor; [reflexivity | exact W]|]. split; [exact S|]. split.
       - eapply Forall_impl; [|exact H]. intros ev.
         apply (sees_history_earlier (messages s) [_] added).
       - intros Hacc. destruct (X Hacc) as (-> & _ & _ & _ & _ & L).
         split; [reflexivity|]. destruct L as (pre & final & -> & Hf);
           [discriminate|].
         eexists (_ :: pre), final. now split. }
  all: rewrite agent_turn_run; cbv zeta; rewrite Hchat; cbn [fst snd]; rewrite Hc;
    unfold try_except, handle_response; rewrite Ht; cbn [has_tool_calls];
    unfold bind, append_message, print, dict_message; cbn [messages world trace];
    destruct (console_print E (answer_panel (cm_content rm))) as [[]|e'] eqn:Pa.
  all: try (eexists; eexists; eexists [_]; exists [EvPrint (answer_panel (cm_content rm))];
    split; [reflexivity|]; cbn [messages trace];
    split; [reflexivity|]; split; [now rewrite <- app_assoc|];
    split; [now repeat constructor|]; split; [now repeat constructor|];
    split; [now repeat constructor|]; intros _; split; [reflexivity|];
    eexists [], _; now split).
  all: rewrite apologize_run; unfold with_event; cbn [messages world trace];
    destruct (console_print E (failure_panel e')) as [[]|e''] eqn:Pe.
  all: eexists; eexists; eexists; eexists;
    (split; [reflexivity|]); cbn [messages trace];
    (split; [rewrite <- ?app_assoc; reflexivity|]);
    (split; [rewrite <- ?app_assoc; reflexivity|]); cbn [app];
    (split; [now repeat constructor|]); (split; [now repeat constructor|]);
    (split; [now repeat constructor|]); not_accepted.
Qed.

Ltac use_printed Hp :=
  cbn [fst snd] in Hp;
  eapply printed_since_events in Hp;
  [| cbn [trace]; rewrite <- ?app_assoc; reflexivity];
  repeat (apply Forall_accepted_inv in Hp as [? Hp]);
  cbn [accepted] in *.

(** When the console printed every line of a step, the step returned. *)
Lemma dispatch_printed_returns (tc : tool_call) (s : store E) :
  printed_since s (snd (dispatch_tool_call E tc s)) ->
  fst (dispatch_tool_call E tc s) = Ok tt.
Proof.
  destruct (dispatch_step_facts tc s)
    as (r & s' & added & events & R & _ & T & _ & _ & _ & _ & _ & X).
  rewrite R. cbn [fst snd]. intros Hp.
  now destruct (X (printed_since_events s s' events T Hp)).
Qed.

(** The round-trip of an executed call when the console printed every line
    of it. *)
Lemma dispatch_executed_printed (tc : tool_call) (s : store E) :
  executable E tc = true ->
  printed_since s (snd (dispatch_tool_call E tc s)) ->
  let fetched := requests_get E url (world s) in
  let out := json_dumps E (fetch_value E (query_argument E tc) (fst fetched)) in
  let l1 := tool_call_line (tc_name tc) (tc_arguments tc) in
  let l2 := tool_output_line out in
  let tm := Message tool (Some out) None (Some (tc_id tc)) (Some (tc_name tc)) in
  let req := ChatRequest model (messages s ++ [tm])%list None None in
  let reply := chat_completions_create E req (snd fetched) in
  dispatch_tool_call E tc s
  = (Ok tt,
     Store (messages s ++ [tm; closing_message tc (fst reply)])%list (snd reply)
           (trace s ++ [EvGet url; EvPrint l1; EvPrint l2; EvChat req;
                        EvPrint (closing_line tc (fst reply))])%list).
Proof.
  intros Hx. cbv zeta.
  assert (Hn : String.eqb (tc_name tc) "get_products_api" = true).
  { unfold executable in Hx. now apply andb_true_iff in Hx as [Hn _]. }
  unfold dispatch_tool_call. rewrite Hn. unfold try_except.
  rewrite (execute_executable tc s Hx). cbv zeta.
  destruct (console_print E (tool_call_line _ _)) as [[]|e1] eqn:P1.
  2: { rewrite report_tool_failure_run. unfold with_event.
       destruct (console_print E (report_line tc e1)) as [[]|e'] eqn:Pr;
         intros Hp; use_printed Hp; congruence. }
  destruct (console_print E (tool_output_line _)) as [[]|e2] eqn:P2.
  2: { rewrite report_tool_failure_run. unfold with_event.
       destruct (console_print E (report_line tc e2)) as [[]|e'] eqn:Pr;
         intros Hp; use_printed Hp; congruence. }
  destruct (chat_completions_create E _ _) as [[response|e3] w2]; cbn [fst snd].
  2: { rewrite report_tool_failure_run. unfold with_event, closing_message,
         closing_line. cbn [messages world trace].
       destruct (console_print E (report_line tc e3)) as [[]|e'] eqn:Pr;
         intros Hp; [now rewrite <- !app_assoc | use_printed Hp; congruence]. }
  unfold closing_message, closing_line.
  destruct (choices response) as [|c more].
  { rewrite report_tool_failure_run. unfold with_event.
    cbn [messages world trace].
    destruct (console_print E (report_line tc _)) as [[]|e'] eqn:Pr;
      intros Hp; [now rewrite <- !app_assoc | use_printed Hp; congruence]. }
  destruct (console_print E (answer_panel _)) as [[]|e4] eqn:P4.
  - reflexivity.
  - rewrite report_tool_failure_run. unfold with_event.
    destruct (console_print E (report_line tc e4)) as [[]|e'] eqn:Pr;
      intros Hp; use_printed Hp; congruence.
Qed.

(** The round-trip of an executed call once its two lines are printed: the
    tool message is appended and the follow-up is requested, whatever
    happens afterwards. *)
Lemma dispatch_executed_begins (tc : tool_call) (s : store E) :
  executable E tc = true ->
  let fetched := requests_get E url (world s) in
  let out := json_dumps E (fetch_value E (query_argument E tc) (fst fetched)) in
  let l1 := tool_call_line (tc_name tc) (tc_arguments tc) in
  let l2 := tool_output_line out in
  let tm := Message tool (Some out) None (Some (tc_id tc)) (Some (tc_name tc)) in
  let req := ChatRequest model (messages s ++ [tm])%list None None in
  let reply := chat_completions_create E req (snd fetched) in
  console_print E l1 = Ok tt ->
  console_print E l2 = Ok tt ->
  exists r s' more_messages more_events,
    dispatch_tool_call E tc s = (r, s')
    /\ messages s' = (messages s ++ tm :: more_messages)%list
    /\ trace s'
       = (trace s ++ [EvGet url; EvPrint l1; EvPrint l2; EvChat req]
          ++ more_events)%list
    /\ (forall response c more,
          fst reply = Ok response -> choices response = c :: more ->
          exists later,
            more_messages
            = Message assistant (cm_content c) None None None :: later).
Proof.
  intros Hx. cbv zeta. intros P1 P2.
  assert (Hn : String.eqb (tc_name tc) "get_products_api" = true).
  { unfold executable in Hx. now apply andb_true_iff in Hx as [Hn _]. }
  unfold dispatch_tool_call. rewrite Hn. unfold try_except.
  rewrite (execute_executable tc s Hx). cbv zeta. rewrite P1, P2.
  destruct (chat_completions_create E _ _) as [[response|e3] w2]; cbn [fst snd].
  2: { rewrite report_tool_failure_run. unfold with_event.
       cbn [messages world trace].
       destruct (console_print E (report_line tc e3)) as [[]|e'];
         eexists; eexists; eexists; eexists;
         (split; [reflexivity|]); cbn [messages trace];
         (split; [rewrite <- ?app_assoc; reflexivity|]);
         (split; [rewrite <- ?app_assoc; cbn [app]; reflexivity|]);
         discriminate. }
  destruct (choices response) as [|c more] eqn:Hc.
  { rewrite report_tool_failure_run. unfold with_event.
    cbn [messages world trace].
    destruct (console_print E (report_line tc _)) as [[]|e'];
      eexists; eexists; eexists; eexists;
      (split; [reflexivity|]); cbn [messages trace];
      (split; [rewrite <- ?app_assoc; reflexivity|]);
      (split; [rewrite <- ?app_assoc; cbn [app]; reflexivity|]);
      intros response' c' more' Hr Hc'; injection Hr as <-; congruence. }
  assert (Hcontent : forall later response' c' more',
    Ok response = Ok response' -> choices response' = c' :: more' ->
    exists later',
      Message assistant (cm_content c) None None None :: later
      = Message assistant (cm_content c') None None None :: later').
  { intros later response' c' more' Hr Hc'. injection Hr as <-.
    rewrite Hc in Hc'. injection Hc' as <- _. eauto. }
  destruct (console_print E (answer_panel _)) as [[]|e4].
  - eexists; eexists; eexists; eexists.
    split; [reflexivity|]. cbn [messages trace].
    split; [reflexivity|]. split; [reflexivity|]. apply Hcontent.
  - rewrite report_tool_failure_run. unfold with_event.
    cbn [messages world trace].
    destruct (console_print E (report_line tc e4)) as [[]|e'];
      eexists; eexists; eexists; eexists;
      (split; [reflexivity|]); cbn [messages trace];
      (split; [rewrite <- ?app_assoc; reflexivity|]);
      (split; [rewrite <- ?app_assoc; cbn [app]; reflexivity|]);
      apply Hcontent.
Qed.

(** C2 (as amended). When the model's response carries tool-call requests,
    the turn appends the model's message and then tool-result messages for
    executed requests only (requests that name [get_products_api] with a
    payload decoding to a mapping with no key but [query]), each after the
    assistant message that emitted its id and at most one for each such
    request; when the console printed every line of the turn, the turn
    returns and the tool-result messages with [tool_call_id] [x] are exactly
    as many as the executed requests carrying [x]: one for an id carried by
    a single executed request and absent from the earlier transcript, none
    for a request that is not executed. *)
Theorem tool_results_answer_executed_calls
  (s : store E) (response : chat_completion) (w : World E)
  (response_message : chat_message) (more : list chat_message)
  (tcs : list tool_call) :
  chat_completions_create E (first_request E s) (world s) = (Ok response, w) ->
  choices response = response_message :: more ->
  cm_tool_calls response_message = Some tcs ->
  tcs <> [] ->
  exists added,
    messages (snd (agent_turn E s))
    = (messages s
       ++ Message assistant (cm_content response_message) (Some tcs) None None
          :: added)%list
    /\ (forall m, In m added -> role m = tool ->
          exists tc, In tc tcs /\ executable E tc = true
                     /\ tool_call_id m = Some (tc_id tc))
    /\ (forall x,
          count_tool_results x (messages (snd (agent_turn E s)))
          <= count_tool_results x (messages s) + count_executed E x tcs)
    /\ (printed_since s (snd (agent_turn E s)) ->
        fst (agent_turn E s) = Ok tt
        /\ forall x,
             count_tool_results x (messages (snd (agent_turn E s)))
             = count_tool_results x (messages s) + count_executed E x tcs).
Proof.
  intros H Hc Ht Hne.
  destruct (agent_turn_tool_calls s _ _ _ _ _ H Hc Ht Hne)
    as (r & s' & added & later & R & M & T & _ & B & C & _ & _ & X).
  rewrite R. cbn [fst snd]. exists added. split; [exact M|]. split; [exact B|].
  assert (Hcount : forall x,
    count_tool_results x (messages s')
    = count_tool_results x (messages s) + count_tool_results x added).
  { intros x. rewrite M.
    change (Message assistant (cm_content response_message) (Some tcs) None None
            :: added)
      with ([Message assistant (cm_content response_message) (Some tcs) None None]
            ++ added)%list.
    rewrite !count_tool_results_app. unfold count_tool_results at 2. cbn. lia. }
  split.
  - intros x. rewrite Hcount. specialize (C x). lia.
  - intros Hp.
    assert (Hacc : Forall (accepted E) later).
    { pose proof (printed_since_events s s' _ T Hp) as Hall.
      now apply Forall_accepted_inv in Hall as [_ Hall]. }
    destruct (X Hacc) as (-> & Q & _). split; [reflexivity|].
    intros x. now rewrite Hcount, Q.
Qed.


(** C4 (as amended). For every request that names [get_products_api], whose
    payload [json.loads] rejects with a [JSONDecodeError] and whose error
    line the console prints, the dispatcher appends exactly one assistant
    message reporting the malformed arguments, sends nothing to the catalog
    or to the model, changes nothing else, and goes on with the next
    request. *)
Theorem undecodable_arguments_are_reported
  (tc : tool_call) (rest : list tool_call) (s : store E) (e : exn) :
  tc_name tc = "get_products_api" ->
  json_loads E (tc_arguments tc) = Raise e ->
  isinstance_JSONDecodeError e = true ->
  let error_message :=
    "Agent tried to call " ++ tc_name tc ++ " with invalid JSON arguments: "
    ++ tc_arguments tc in
  let line := Markup ("[bold red]Error:[/bold red] " ++ error_message) in
  let report :=
    Message assistant
      (Some ("I encountered an error processing your request: " ++ error_message))
      None None None in
  let s' := Store (messages s ++ [report])%list (world s)
                  (trace s ++ [EvPrint line])%list in
  console_print E line = Ok tt ->
  dispatch_tool_call E tc s = (Ok tt, s')
  /\ for_each (tc :: rest) (dispatch_tool_call E) s
     = for_each rest (dispatch_tool_call E) s'.
Proof.
  intros Hn Hl He. cbv zeta. intros Hp.
  assert (H : dispatch_tool_call E tc s
              = (Ok tt,
                 Store (messages s
                        ++ [Message assistant
                              (Some ("I encountered an error processing your request: "
                                     ++ ("Agent tried to call " ++ tc_name tc
                                         ++ " with invalid JSON arguments: "
                                         ++ tc_arguments tc))%string)
                              None None None])%list
                       (world s)
                       (trace s
                        ++ [EvPrint
                              (Markup ("[bold red]Error:[/bold red] "
                                       ++ ("Agent tried to call " ++ tc_name tc
                                           ++ " with invalid JSON arguments: "
                                           ++ tc_arguments tc))%string)])%list)).
  { unfold dispatch_tool_call. rewrite Hn. cbn [String.eqb Ascii.eqb Bool.eqb].
    unfold try_except, execute_tool_call, bind at 1, loads, lift.
    rewrite <- Hn at 1. rewrite Hl, report_tool_failure_run.
    unfold report_line, report_text. rewrite He.
    unfold error_line, invalid_arguments_error, invalid_arguments_text in *.
    rewrite Hn in *. rewrite Hp. reflexivity. }
  split; [exact H|]. cbn [for_each]. unfold bind at 1. now rewrite H.
Qed.

(** C8 (as amended). A line that, trimmed and lower-cased, is [exit] or
    [quit] ends the loop with no further request and no change to the
    transcript; every other line, the empty line included, is appended as a
    user message and the turn starts with the request to the model. *)
Theorem exit_commands_end_the_session
  (line : string) (rest : list string) (s : store E) :
  let command := str_lower E (str_strip E line) in
  (command = "exit" \/ command = "quit" ->
   session_loop E (line :: rest) s = (Ok tt, s))
  /\ (command <> "exit" -> command <> "quit" ->
      let user_message := Message user (Some line) None None None in
      let s1 := Store (messages s ++ [user_message])%list (world s) (trace s) in
      let request :=
        ChatRequest model (messages s ++ [user_message])%list
                    (Some available_tools) (Some "auto") in
      exists added later,
        messages (snd (agent_turn E s1))
        = (messages s ++ user_message :: added)%list
        /\ trace (snd (agent_turn E s1))
           = (trace s ++ EvChat request :: later)%list
        /\ session_loop E (line :: rest) s
           = match agent_turn E s1 with
             | (Ok _, s2) => session_loop E rest s2
             | (Raise e, s2) => (Raise e, s2)
             end).
Proof.
  cbv zeta. cbn [session_loop]. unfold is_exit_command. split.
  - intros [-> | ->]; reflexivity.
  - intros H1 H2.
    destruct (String.eqb_spec (str_lower E (str_strip E line)) "exit");
      [contradiction|].
    destruct (String.eqb_spec (str_lower E (str_strip E line)) "quit");
      [contradiction|].
    cbn [orb].
    destruct (agent_turn_facts
                (Store (messages s ++ [Message user (Some line) None None None])%list
                       (world s) (trace s)))
      as (r & s2 & added & later & R & M & T & _).
    exists added, later. rewrite R. cbn [snd messages trace] in *.
    split; [now rewrite M, <- app_assoc|]. split; [exact T|].
    unfold bind, append_message, dict_message. now rewrite R.
Qed.

(** C9 (as amended). In a turn whose console lines are all printed, no
    failure ends the session: the turn returns and the loop reads the next
    line.  A failure of the first model call, or a response without a
    choice, is caught at the turn boundary and answered with the generic
    apology; a failure inside the dispatch of a tool call is caught for that
    call alone and answered with the message that names the failure. *)
Theorem turn_failures_do_not_end_the_session
  (line : string) (rest : list string) (s : store E) :
  is_exit_command E line = false ->
  let user_message := Message user (Some line) None None None in
  let s1 := Store (messages s ++ [user_message])%list (world s) (trace s) in
  let request :=
    ChatRequest model (messages s ++ [user_message])%list
                (Some available_tools) (Some "auto") in
  let apology :=
    Message assistant
      (Some "I apologize, but I encountered an error. Could you please try again?")
      None None None in
  let panel (e : exn) :=
    Panel ("[bold red]An unexpected error occurred:[/bold red] " ++ exn_str e)
          "red" in
  printed_since s1 (snd (agent_turn E s1)) ->
  exists s2,
    agent_turn E s1 = (Ok tt, s2)
    /\ session_loop E (line :: rest) s = session_loop E rest s2
    /\ (forall e w,
          chat_completions_create E request (world s) = (Raise e, w) ->
          s2 = Store (messages s ++ [user_message; apology])%list w
                     (trace s ++ [EvChat request; EvPrint (panel e)])%list)
    /\ (forall response w,
          chat_completions_create E request (world s) = (Ok response, w) ->
          choices response = [] ->
          s2 = Store (messages s ++ [user_message; apology])%list w
                     (trace s
                      ++ [EvChat request;
                          EvPrint (panel (Exn IndexError "list index out of range"))])%list)
    /\ (forall tc s0,
          printed_since s0 (snd (dispatch_tool_call E tc s0)) ->
          fst (dispatch_tool_call E tc s0) = Ok tt)
    /\ (forall tc s0 e,
          executable E tc = true ->
          printed_since s0 (snd (dispatch_tool_call E tc s0)) ->
          let fetched := requests_get E url (world s0) in
          let out :=
            json_dumps E (fetch_value E (query_argument E tc) (fst fetched)) in
          let tm :=
            Message tool (Some out) None (Some (tc_id tc)) (Some (tc_name tc)) in
          fst (chat_completions_create E
                 (ChatRequest model (messages s0 ++ [tm])%list None None)
                 (snd fetched))
          = Raise e ->
          isinstance_JSONDecodeError e = false ->
          fst (dispatch_tool_call E tc s0) = Ok tt
          /\ messages (snd (dispatch_tool_call E tc s0))
             = (messages s0
                ++ [tm;
                    Message assistant
                      (Some ("I encountered an error while trying to find products: "
                             ++ exn_str e)%string)
                      None None None])%list).
Proof.
  intros Hexit. cbv zeta. intros Hp.
  destruct (agent_turn_facts
              (Store (messages s ++ [Message user (Some line) None None None])%list
                     (world s) (trace s)))
    as (r & s2 & added & later & R & M & T & _ & _ & _ & X).
  rewrite R in Hp. cbn [snd] in Hp.
  pose proof (printed_since_events _ _ _ T Hp) as Hall.
  apply Forall_accepted_inv in Hall as [_ Hall].
  destruct (X Hall) as [-> _].
  exists s2. split; [exact R|]. split; [|split; [|split; [|split]]].
  - cbn [session_loop]. rewrite Hexit.
    unfold bind, append_message, dict_message. now rewrite R.
  - intros e w H. rewrite agent_turn_run in R. cbv zeta in R.
    unfold first_request in R. cbn [messages world trace] in R.
    rewrite H in R. cbn [fst snd] in R. rewrite apologize_run in R.
    unfold with_event, failure_panel, apology_text in R.
    cbn [messages world trace] in R.
    destruct (console_print E _) as [[]|e']; [|discriminate R].
    injection R as <-. now rewrite <- !app_assoc.
  - intros response w H Hc. rewrite agent_turn_run in R. cbv zeta in R.
    unfold first_request in R. cbn [messages world trace] in R.
    rewrite H in R. cbn [fst snd] in R. rewrite Hc, apologize_run in R.
    unfold with_event, failure_panel, apology_text in R.
    cbn [messages world trace] in R.
    destruct (console_print E _) as [[]|e']; [|discriminate R].
    injection R as <-. now rewrite <- !app_assoc.
  - intros tc s0. apply dispatch_printed_returns.
  - intros tc s0 e Hx Hp0 Hr He.
    rewrite (dispatch_executed_printed tc s0 Hx Hp0). cbv zeta. cbn [fst snd messages].
    rewrite Hr. unfold closing_message, report_text. rewrite He.
    split; reflexivity.
Qed.

End Orchestrator.
(** * The properties at concrete inputs *)

Import Scripted.

(** C1, as stated, fails: a product whose description is [null] makes the
    filter raise, and [get_products_api] returns the error variant instead
    of a list of products. *)
Lemma fetch_with_query_null_description :
  fst (get_products_api env (JStr "shoe") null_description)
  = Ok (JObj [("error",
               JStr "An unexpected error occurred: sequence item 1: expected str instance, NoneType found")])
  /\ ~ (exists R,
          fst (get_products_api env (JStr "shoe") null_description)
          = Ok (JObj [("data", JArr R)])).
Proof.
  split; [reflexivity|]. intros [R H]. discriminate H.
Qed.

Lemma fetch_with_query_filters_catalog_witness :
  fst (get_products_api env (JStr "SHOE") two_products)
  = Ok (JObj [("data", JArr [shoe])]).
Proof.
  destruct (fetch_with_query_filters_catalog env "SHOE" two_products
              (HttpResponse 200 "OK" (Ok (catalog_body [shoe; watch])))
              (Script [] []) [("data", JArr [shoe; watch])] [shoe; watch])
    as [H _].
  - discriminate.
  - reflexivity.
  - left; reflexivity.
  - reflexivity.
  - reflexivity.
  - destruct (H eq_refl) as (R & HR & HF & _). rewrite HR, HF. reflexivity.
Defined.

(** C5, as stated, fails: a response with status 300 and a well-formed body
    is not an error for [raise_for_status], and the products are returned. *)
Lemma fetch_at_status_300 :
  status_code multiple_choices = 300%Z
  /\ fst (get_products_api env JNull status_300)
     = Ok (JObj [("data", JArr [shoe])])
  /\ ~ (exists text tail,
          fst (get_products_api env JNull status_300)
          = Ok (JObj (("error", text) :: tail))).
Proof.
  split; [reflexivity|]. split; [reflexivity|].
  intros (text & tail & H). discriminate H.
Qed.

Lemma fetch_failures_are_returned_witness :
  fst (get_products_api env JNull unreachable)
  = Ok (JObj [("error",
               JStr "Failed to fetch products from API: connection refused")]).
Proof.
  destruct (fetch_failures_are_returned env JNull unreachable
              (Raise (Exn RequestException "connection refused"))
              (Script [] []) eq_refl)
    as (_ & _ & H & _).
  exact (H _ eq_refl eq_refl).
Defined.

(** C6, as stated, fails: for the body [null] the membership test itself
    raises, and the error variant returned carries no [raw_response]. *)
Lemma fetch_null_body :
  fst (get_products_api env JNull null_body)
  = Ok (JObj [("error",
               JStr "An unexpected error occurred: argument of type 'NoneType' is not iterable")])
  /\ ~ (exists text,
          fst (get_products_api env JNull null_body)
          = Ok (JObj [("error", text); ("raw_response", JNull)])).
Proof.
  split; [reflexivity|]. intros [text H]. discriminate H.
Qed.

Lemma fetch_rejects_ill_formed_body_witness :
  fst (get_products_api env JNull string_data)
  = Ok (JObj [("error", JStr invalid_format_message);
              ("raw_response", data_not_a_list)]).
Proof.
  destruct (fetch_rejects_ill_formed_body env JNull string_data
              (HttpResponse 200 "OK" (Ok data_not_a_list)) (Script [] [])
              data_not_a_list eq_refl (or_introl eq_refl) eq_refl eq_refl)
    as [_ H].
  exact (H _ eq_refl).
Defined.

Lemma fetch_without_query_returns_catalog_witness :
  get_products_api env JNull two_products
  = (Ok (JObj [("data", JArr [shoe; watch])]),
     Store (E := env) (messages two_products) (Script [] []) [EvGet url]).
Proof.
  exact (fetch_without_query_returns_catalog env JNull two_products
           (HttpResponse 200 "OK" (Ok (catalog_body [shoe; watch])))
           (Script [] []) [("data", JArr [shoe; watch])] [shoe; watch]
           eq_refl (or_introl eq_refl) eq_refl eq_refl (or_introl eq_refl)).
Defined.

(** C2, as stated, fails: a request for a tool that does not exist is
    answered by an assistant message, and no tool-result message carries
    its id, although the turn returns and the console printed every
    line. *)
Lemma unknown_tool_gets_no_tool_result :
  agent_turn env unknown_tool_turn
  = (Ok tt,
     Store (E := env)
       (messages unknown_tool_turn
        ++ [Message assistant None (Some [price_call]) None None;
            Message assistant
              (Some "I was asked to use an unknown tool (lookup_price). Please try again or rephrase your request.")
              None None None])%list
       (Script [] [])
       [EvChat (first_request env unknown_tool_turn);
        EvPrint (Markup "[bold red]Error:[/bold red] Unknown tool requested by agent: lookup_price")])
  /\ count_tool_results (tc_id price_call)
       (messages (snd (agent_turn env unknown_tool_turn))) = 0.
Proof. split; reflexivity. Qed.

Lemma tool_results_answer_executed_calls_witness :
  count_tool_results (tc_id catalog_call)
    (messages (snd (agent_turn env catalog_turn))) = 1.
Proof.
  destruct (tool_results_answer_executed_calls env catalog_turn
              (ChatCompletion [ChatMessage None (Some [catalog_call])])
              (Script [ok_body (catalog_body [shoe; watch])]
                      [says "We have a shoe and a watch."])
              (ChatMessage None (Some [catalog_call])) [] [catalog_call]
              eq_refl eq_refl eq_refl)
    as (added & _ & _ & _ & Hprinted).
  - discriminate.
  - destruct Hprinted as [_ Hcount].
    + eexists. split; [reflexivity|]. repeat constructor.
    + rewrite Hcount. reflexivity.
Defined.


(** C4, as stated, fails: the tool name is examined before the payload, so
    an undecodable payload for an unknown tool is reported as an unknown
    tool, not as malformed arguments. *)
Lemma unknown_tool_hides_malformed_arguments :
  json_loads env (tc_arguments broken_price_call)
  = Raise (Exn JSONDecodeError "Expecting value: line 1 column 1 (char 0)")
  /\ dispatch_tool_call env broken_price_call unreachable
     = (Ok tt,
        Store (E := env)
          (messages unreachable
           ++ [Message assistant
                 (Some "I was asked to use an unknown tool (lookup_price). Please try again or rephrase your request.")
                 None None None])%list
          (Script [] [])
          [EvPrint (Markup "[bold red]Error:[/bold red] Unknown tool requested by agent: lookup_price")])
  /\ ~ In (Message assistant
             (Some "I encountered an error processing your request: Agent tried to call lookup_price with invalid JSON arguments: {not json")
             None None None)
          (messages (snd (dispatch_tool_call env broken_price_call unreachable))).
Proof.
  split; [reflexivity|]. split; [reflexivity|]. cbn.
  intros [H | [H | []]]; discriminate H.
Qed.

Lemma undecodable_arguments_are_reported_witness :
  dispatch_tool_call env broken_catalog_call pending_call
  = (Ok tt,
     Store (E := env)
       (messages pending_call
        ++ [Message assistant
              (Some "I encountered an error processing your request: Agent tried to call get_products_api with invalid JSON arguments: {not json")
              None None None])%list
       (world pending_call)
       [EvPrint (Markup "[bold red]Error:[/bold red] Agent tried to call get_products_api with invalid JSON arguments: {not json")]).
Proof.
  exact (proj1 (undecodable_arguments_are_reported env broken_catalog_call
                  [catalog_call] pending_call
                  (Exn JSONDecodeError "Expecting value: line 1 column 1 (char 0)")
                  eq_refl eq_refl eq_refl eq_refl)).
Defined.

(** C8, as stated, fails: the empty line is not an exit command; it is
    appended as a user message and sent to the model. *)
Lemma empty_line_is_sent_to_the_model :
  is_exit_command env EmptyString = false
  /\ session_loop env [EmptyString; "exit"] prose_session
     = (Ok tt,
        Store (E := env)
          (messages prose_session
           ++ [Message user (Some EmptyString) None None None;
               Message assistant (Some "hello") None None None])%list
          (Script [] [says "what can I find for you?"])
          [EvChat (ChatRequest model
                     (messages prose_session
                      ++ [Message user (Some EmptyString) None None None])%list
                     (Some available_tools) (Some "auto"));
           EvPrint (Panel "[green]Agent:[/green] hello" "green")]).
Proof. split; reflexivity. Qed.

Lemma exit_commands_end_the_session_witness :
  session_loop env ["  Quit "; "hello"] prose_session = (Ok tt, prose_session)
  /\ exists later,
       trace (snd (agent_turn env
                     (Store (E := env)
                        (messages prose_session
                         ++ [Message user (Some "hi") None None None])%list
                        (world prose_session) (trace prose_session))))
       = (trace prose_session
          ++ EvChat (ChatRequest model
                       (messages prose_session
                        ++ [Message user (Some "hi") None None None])%list
                       (Some available_tools) (Some "auto"))
             :: later)%list.
Proof.
  split.
  - exact (proj1 (exit_commands_end_the_session env "  Quit " ["hello"]
                    prose_session) (or_intror eq_refl)).
  - destruct (proj2 (exit_commands_end_the_session env "hi" ["EXIT"]
                       prose_session))
      as (added & later & _ & Htrace & _).
    + discriminate.
    + discriminate.
    + exists later. exact Htrace.
Defined.

(** C9, as stated, fails: a failure of the follow-up model call is caught
    inside the dispatch of that tool call and answered with the message
    naming the failure; the generic apology is not appended, although the
    turn returns and the console printed every line. *)
Lemma followup_failure_is_reported_per_call :
  fst (agent_turn env failed_followup_turn) = Ok tt
  /\ messages (snd (agent_turn env failed_followup_turn))
     = (messages failed_followup_turn
        ++ [Message assistant None (Some [catalog_call]) None None;
            Message tool (Some "data: 1 products") None (Some "z")
              (Some "get_products_api");
            Message assistant
              (Some "I encountered an error while trying to find products: service unavailable")
              None None None])%list
  /\ ~ In (Message assistant
             (Some "I apologize, but I encountered an error. Could you please try again?")
             None None None)
          (messages (snd (agent_turn env failed_followup_turn))).
Proof.
  split; [reflexivity|]. split; [reflexivity|]. cbn.
  intros [H | [H | [H | [H | [H | []]]]]]; discriminate H.
Qed.

Lemma turn_failures_do_not_end_the_session_witness :
  session_loop env ["shoes"; "quit"] unreachable
  = (Ok tt,
     Store (E := env)
       (messages unreachable
        ++ [Message user (Some "shoes") None None None;
            Message assistant
              (Some "I apologize, but I encountered an error. Could you please try again?")
              None None None])%list
       (Script [] [])
       [EvChat (ChatRequest model
                  (messages unreachable
                   ++ [Message user (Some "shoes") None None None])%list
                  (Some available_tools) (Some "auto"));
        EvPrint (Panel "[bold red]An unexpected error occurred:[/bold red] connection error" "red")]).
Proof.
  destruct (turn_failures_do_not_end_the_session env "shoes" ["quit"]
              unreachable eq_refl)
    as (s2 & _ & Hloop & Hraise & _).
  - eexists. split; [reflexivity|]. repeat constructor.
  - rewrite Hloop.
    rewrite (Hraise (Exn OtherException "connection error") (Script [] []) eq_refl).
    reflexivity.
Defined.
(** * Further properties of the catalog client *)

Lemma string_app_assoc (a b c : string) : (a ++ b) ++ c = a ++ (b ++ c).
Proof. induction a as [|x a IH]; cbn; [reflexivity | now rewrite IH]. Qed.

Lemma Substring_trans (a b c : string) :
  Substring a b -> Substring b c -> Substring a c.
Proof.
  intros (p1 & q1 & ->) (p2 & q2 & ->).
  exists (p2 ++ p1), (q1 ++ q2). now rewrite !string_app_assoc.
Qed.

Lemma Subsequence_refl {A} (l : list A) : Subsequence l l.
Proof. induction l; now constructor. Qed.

Lemma Subsequence_filter_implies {A} (f g : A -> bool) (l : list A) :
  (forall x, f x = true -> g x = true) ->
  Subsequence (filter f l) (filter g l).
Proof.
  intros H. induction l as [|x l IH]; cbn; [constructor|].
  destruct (f x) eqn:Hf.
  - rewrite (H x Hf). now constructor.
  - destruct (g x); [now constructor | exact IH].
Qed.

Section CatalogFurther.

Variable E : Env.

Lemma filter_loop_ok_searchable (ql : string) (products acc kept : list json) :
  filter_loop E ql products acc = Ok kept ->
  forallb searchable_product products = true.
Proof.
  intros H. destruct (forallb searchable_product products) eqn:Hs; [reflexivity|].
  destruct (filter_loop_raises E ql products acc Hs) as [e He]. congruence.
Qed.

Lemma select_products_list (q : json) (P : list json) (v : json) :
  select_products E q (JArr P) = Ok v -> exists R, v = JArr R.
Proof.
  unfold select_products. destruct (truthy q).
  - destruct (py_lower E q) as [ql|e]; cbn; [|discriminate].
    destruct (filter_loop E ql P []) as [kept|e]; cbn; [|discriminate].
    intros H. injection H as <-. eauto.
  - intros H. injection H as <-. eauto.
Qed.

Lemma catalog_result_variant (q data v : json) :
  catalog_result E q data = Ok v -> catalog_variant v.
Proof.
  unfold catalog_result, catalog_variant.
  destruct data as [| | | |text|items|fields]; cbn; try discriminate.
  - destruct (str_in "data" text); cbn; [discriminate|].
    intros H. injection H as <-. eauto.
  - destruct (existsb (str_eq_value "data") items); cbn; [discriminate|].
    intros H. injection H as <-. eauto.
  - destruct (dict_get "data" fields) as [item|]; cbn.
    + destruct item; cbn;
        try (intros H; injection H as <-; eauto; fail).
      destruct (select_products E q (JArr items)) as [v'|e] eqn:Hs; cbn;
        [|discriminate].
      destruct (select_products_list q items v' Hs) as [R ->].
      intros H. injection H as <-. eauto.
    + intros H. injection H as <-. eauto.
Qed.

(** X1. Whatever the query and whatever the remote service does,
    [get_products_api] returns one of its documented shapes: the products
    under [data] (always a list), or an error message, alone or with the
    raw body; never a mixture. *)
Theorem fetch_returns_a_catalog_variant (q : json) (s : store E) :
  exists v s', get_products_api E q s = (Ok v, s') /\ catalog_variant v.
Proof.
  rewrite get_products_api_run. eexists; eexists. split; [reflexivity|].
  unfold fetch_value.
  match goal with
  | |- catalog_variant (match ?body with Ok _ => _ | Raise _ => _ end) =>
      destruct body as [v|e] eqn:Hb
  end.
  - destruct (fst (requests_get E url (world s))) as [r|e]; cbn in Hb;
      [|discriminate].
    destruct (raise_for_status url r) as [[]|e]; cbn in Hb; [|discriminate].
    destruct (response_json r) as [data|e]; cbn in Hb; [|discriminate].
    exact (catalog_result_variant q data v Hb).
  - unfold catalog_variant, failure_result. eauto.
Qed.

(** X2. A query that is not a string is never searched for: a falsy one
    (0, false, an empty list or mapping) returns the whole catalog, a truthy
    one makes [query.lower()] fail and the error variant is returned. *)
Theorem fetch_with_non_string_query
  (q : json) (s : store E) (r : http_response) (w : World E)
  (fields : list (string * json)) (P : list json) :
  requests_get E url (world s) = (Ok r, w) ->
  passes_status r ->
  response_json r = Ok (JObj fields) ->
  dict_get "data" fields = Some (JArr P) ->
  (forall text, q <> JStr text) ->
  (truthy q = false ->
   fst (get_products_api E q s) = Ok (JObj [("data", JArr P)]))
  /\ (truthy q = true ->
      exists text,
        fst (get_products_api E q s)
        = Ok (JObj [("error", JStr ("An unexpected error occurred: " ++ text))])).
Proof.
  intros H Hs Hb Hd Hq. rewrite get_products_api_run, H. cbn.
  rewrite (fetch_value_body E q r _ Hs Hb), (catalog_result_well_formed E q _ _ Hd).
  unfold select_products. split; intros Ht; rewrite Ht; [reflexivity|].
  destruct q as [| | | |text| |]; try (eexists; reflexivity).
  now destruct (Hq text).
Qed.

(** X3. Narrowing the query narrows the result: when the lower-cased [q1]
    occurs in the lower-cased [q2], every product a search for [q2] returns
    is returned by a search for [q1], in the same order. *)
Theorem narrower_query_narrows_result (q1 q2 : string) (P R2 : list json) :
  q2 <> EmptyString ->
  Substring (str_lower E q1) (str_lower E q2) ->
  select_products E (JStr q2) (JArr P) = Ok (JArr R2) ->
  exists R1,
    select_products E (JStr q1) (JArr P) = Ok (JArr R1) /\ Subsequence R2 R1.
Proof.
  intros Hne Hsub. unfold select_products. cbn.
  destruct (String.eqb_spec q2 EmptyString); [contradiction|]. cbn.
  destruct (filter_loop E (str_lower E q2) P []) as [kept|e] eqn:Hk; cbn;
    [|discriminate].
  intros H. injection H as <-.
  pose proof (filter_loop_ok_searchable _ _ _ _ Hk) as Hs.
  rewrite (filter_loop_searchable E _ P [] Hs) in Hk. injection Hk as <-. cbn.
  destruct (String.eqb q1 EmptyString); cbn.
  - eexists; split; [reflexivity|]. apply Subsequence_filter.
  - rewrite (filter_loop_searchable E _ P [] Hs). cbn.
    eexists; split; [reflexivity|]. apply Subsequence_filter_implies.
    intros p. unfold matches. rewrite !str_in_Substring.
    intros Hm. exact (Substring_trans _ _ _ Hsub Hm).
Qed.

(** X4. The filter works product by product from left to right: filtering
    two lists one after the other, the second starting from what the first
    kept, is filtering their concatenation; an unreadable product in either
    makes both fail. *)
Theorem filter_loop_app (ql : string) (P1 P2 acc : list json) :
  filter_loop E ql (P1 ++ P2)%list acc
  = rbind (filter_loop E ql P1 acc) (filter_loop E ql P2).
Proof.
  revert acc; induction P1 as [|p P1 IH]; intros acc; cbn; [reflexivity|].
  destruct (searchable_text E p) as [text|e]; cbn; [|reflexivity].
  destruct (str_in ql text); apply IH.
Qed.

End CatalogFurther.

(** * Further properties of the orchestrator *)

Lemma user_lines_app (l1 l2 : list message) :
  user_lines (l1 ++ l2) = (user_lines l1 ++ user_lines l2)%list.
Proof. unfold user_lines. now rewrite filter_app, map_app. Qed.

Lemma user_lines_of_agent (l : list message) :
  Forall (fun m => written_by_agent m = true) l -> user_lines l = [].
Proof.
  unfold user_lines, written_by_agent, is_user.
  induction 1 as [|m l Hm _ IH]; cbn; [reflexivity|].
  destruct (role m); try discriminate; exact IH.
Qed.

Lemma no_system_of_agent (l : list message) :
  Forall (fun m => written_by_agent m = true) l ->
  Forall (fun m => is_system m = false) l.
Proof.
  apply Forall_impl. intros m. unfold written_by_agent, is_system.
  now destruct (role m).
Qed.

Section OrchestratorFurther.

Variable E : Env.

(** X5. When the body of the catalog response cannot be decoded,
    [get_products_api] returns the error variant that reports the decoding
    failure; it does not raise. *)
Theorem fetch_undecodable_body
  (q : json) (s : store E) (r : http_response) (w : World E) (e : exn) :
  requests_get E url (world s) = (Ok r, w) ->
  passes_status r ->
  response_json r = Raise e ->
  get_products_api E q s
  = (Ok (JObj [("error",
                JStr ((if isinstance_RequestException e
                       then "Failed to fetch products from API: "
                       else "An unexpected error occurred: ") ++ exn_str e))]),
     Store (messages s) w (trace s ++ [EvGet url])%list).
Proof.
  intros H Hs Hb. rewrite get_products_api_run, H. cbn. unfold fetch_value. cbn.
  rewrite (raise_for_status_passes url r Hs). cbn. now rewrite Hb.
Qed.

(** X6. A request for any tool other than [get_products_api] whose error
    line the console prints is answered by one assistant message that names
    the unknown tool; its payload is not decoded, nothing is sent to the
    catalog or to the model, and the next request is processed. *)
Theorem unknown_tool_is_reported
  (tc : tool_call) (rest : list tool_call) (s : store E) :
  tc_name tc <> "get_products_api" ->
  let line :=
    Markup ("[bold red]Error:[/bold red] Unknown tool requested by agent: "
            ++ tc_name tc) in
  let report :=
    Message assistant
      (Some ("I was asked to use an unknown tool (" ++ tc_name tc
             ++ "). Please try again or rephrase your request."))
      None None None in
  let s' := Store (messages s ++ [report])%list (world s)
                  (trace s ++ [EvPrint line])%list in
  console_print E line = Ok tt ->
  dispatch_tool_call E tc s = (Ok tt, s')
  /\ for_each (tc :: rest) (dispatch_tool_call E) s
     = for_each rest (dispatch_tool_call E) s'.
Proof.
  intros Hn. cbv zeta. intros Hp.
  assert (H : dispatch_tool_call E tc s
              = (Ok tt,
                 Store (messages s
                        ++ [Message assistant
                              (Some ("I was asked to use an unknown tool ("
                                     ++ tc_name tc
                                     ++ "). Please try again or rephrase your request.")%string)
                              None None None])%list
                       (world s)
                       (trace s
                        ++ [EvPrint
                              (Markup ("[bold red]Error:[/bold red] Unknown tool requested by agent: "
                                       ++ tc_name tc)%string)])%list)).
  { unfold dispatch_tool_call.
    destruct (String.eqb_spec (tc_name tc) "get_products_api");
      [contradiction|].
    unfold bind, print, append_message, error_line, unknown_tool_error,
      dict_message, unknown_tool_text.
    cbn [append] in Hp |- *. now rewrite Hp. }
  split; [exact H|]. cbn [for_each]. unfold bind at 1. now rewrite H.
Qed.

(** X7. When the payload of a [get_products_api] request decodes to
    something that cannot be passed as keyword arguments (not a mapping, or
    a mapping with a key other than [query]) the call fails before the
    catalog is contacted: once the console printed the error line, one
    assistant message reports the failure, and nothing was sent to the
    catalog or to the model. *)
Theorem unusable_arguments_are_reported
  (tc : tool_call) (s : store E) (v : json) :
  tc_name tc = "get_products_api" ->
  json_loads E (tc_arguments tc) = Ok v ->
  (forall fields, v = JObj fields ->
                  exists kv, In kv fields /\ fst kv <> "query") ->
  printed_since s (snd (dispatch_tool_call E tc s)) ->
  exists text,
    dispatch_tool_call E tc s
    = (Ok tt,
       Store (messages s
              ++ [Message assistant
                    (Some ("I encountered an error while trying to find products: "
                           ++ text)%string)
                    None None None])%list
             (world s)
             (trace s
              ++ [EvPrint
                    (Markup ("[bold red]Error:[/bold red] Error executing tool get_products_api: "
                             ++ text)%string)])%list).
Proof.
  intros Hn Hl Hv Hp.
  assert (Hraise : exists text,
            execute_tool_call E tc s = (Raise (Exn TypeError text), s)).
  { unfold execute_tool_call, bind, loads, lift. rewrite Hl.
    destruct v as [| | | | | |fields]; try (eexists; reflexivity).
    cbn. destruct (find (fun kv => negb (String.eqb (fst kv) "query")) fields)
      as [kv|] eqn:Hf; [eexists; reflexivity|].
    destruct (Hv fields eq_refl) as (kv & Hin & Hk).
    pose proof (find_none _ _ Hf kv Hin) as Hq. cbn in Hq.
    destruct (String.eqb_spec (fst kv) "query"); [contradiction | discriminate]. }
  destruct Hraise as [text Hraise]. exists text. revert Hp.
  unfold dispatch_tool_call. rewrite Hn. cbn [String.eqb Ascii.eqb Bool.eqb].
  unfold try_except. rewrite Hraise, report_tool_failure_run.
  unfold report_line, report_text, with_event, error_line, tool_failure_error,
    tool_failure_text. cbn [isinstance_JSONDecodeError exn_cls exn_str].
  rewrite Hn.
  destruct (console_print E _) as [[]|e'] eqn:Pr; intros Hp.
  - reflexivity.
  - cbn [fst snd] in Hp.
    eapply printed_since_events in Hp; [| cbn [with_event trace]; reflexivity].
    apply Forall_accepted_inv in Hp as [Hp _]. cbn [accepted] in Hp.
    congruence.
Qed.

(** X8. When the model's response requests no tool (its [tool_calls] is
    absent or an empty list) and the console prints the answer, the turn
    appends the response's content as one assistant message; the only
    request of the turn is the first one, and the catalog is not
    contacted. *)
Theorem direct_answer_is_appended
  (s : store E) (response : chat_completion) (w : World E)
  (response_message : chat_message) (more : list chat_message) :
  chat_completions_create E (first_request E s) (world s) = (Ok response, w) ->
  choices response = response_message :: more ->
  cm_tool_calls response_message = None
  \/ cm_tool_calls response_message = Some [] ->
  let panel :=
    Panel ("[green]Agent:[/green] "
           ++ match cm_content response_message with
              | Some text => text
              | None => "None"
              end)
          "green" in
  console_print E panel = Ok tt ->
  agent_turn E s
  = (Ok tt,
     Store (messages s
            ++ [Message assistant (cm_content response_message) None None None])%list
           w (trace s ++ [EvChat (first_request E s); EvPrint panel])%list).
Proof.
  intros H Hc Ht. cbv zeta. intros Hp. rewrite agent_turn_run. cbv zeta.
  rewrite H. cbn [fst snd]. rewrite Hc. unfold try_except, handle_response.
  assert (Hno : has_tool_calls (cm_tool_calls response_message) = false)
    by (destruct Ht as [-> | ->]; reflexivity).
  rewrite Hno. unfold bind, append_message, print, dict_message, answer_panel,
    format_content. cbn [messages world trace]. rewrite Hp.
  now rewrite <- app_assoc.
Qed.

(** X9. Whatever the model, the catalog and the console do, a turn only
    appends to the transcript and what it appends is written in the
    assistant or tool role; when the console printed every line of the turn,
    the turn returns and the transcript ends with an assistant message. *)
Theorem turn_extends_transcript (s : store E) :
  exists added,
    messages (snd (agent_turn E s)) = (messages s ++ added)%list
    /\ Forall (fun m => written_by_agent m = true) added
    /\ (printed_since s (snd (agent_turn E s)) ->
        fst (agent_turn E s) = Ok tt /\ ends_with_assistant added).
Proof.
  destruct (agent_turn_facts E s)
    as (r & s' & added & later & R & M & T & W & _ & _ & X).
  rewrite R. cbn [fst snd]. exists added. split; [exact M|]. split; [exact W|].
  intros Hp. pose proof (printed_since_events E _ _ _ T Hp) as Hall.
  apply Forall_accepted_inv in Hall as [_ Hall]. exact (X Hall).
Qed.

(** X10. In a turn in which the model requests tool calls and the console
    prints every line, the catalog is contacted once per executed call and
    the model is asked once more per executed call, and for no other
    call. *)
Theorem turn_requests_match_executed_calls
  (s : store E) (response : chat_completion) (w : World E)
  (response_message : chat_message) (more : list chat_message)
  (tcs : list tool_call) :
  chat_completions_create E (first_request E s) (world s) = (Ok response, w) ->
  choices response = response_message :: more ->
  cm_tool_calls response_message = Some tcs ->
  tcs <> [] ->
  printed_since s (snd (agent_turn E s)) ->
  exists events,
    trace (snd (agent_turn E s))
    = (trace s ++ EvChat (first_request E s) :: events)%list
    /\ length (filter is_get events) = length (filter (executable E) tcs)
    /\ length (filter is_chat events) = length (filter (executable E) tcs).
Proof.
  intros H Hc Ht Hne.
  destruct (agent_turn_tool_calls E s _ _ _ _ _ H Hc Ht Hne)
    as (r & s' & added & later & R & M & T & _ & _ & _ & _ & _ & X).
  rewrite R. cbn [snd]. intros Hp. exists later. split; [exact T|].
  pose proof (printed_since_events E _ _ _ T Hp) as Hall.
  apply Forall_accepted_inv in Hall as [_ Hall].
  destruct (X Hall) as (_ & _ & _ & G & C & _). now split.
Qed.


(** The trace of a session only grows. *)
Lemma session_trace_extends (inputs : list string) (s : store E) :
  exists events,
    trace (snd (session_loop E inputs s)) = (trace s ++ events)%list.
Proof.
  revert s; induction inputs as [|l inputs IH]; intros s; cbn [session_loop].
  - exists []. cbn. now rewrite app_nil_r.
  - destruct (is_exit_command E l).
    + exists []. cbn. now rewrite app_nil_r.
    + unfold bind at 1 2, append_message.
      destruct (agent_turn_facts E
                  (Store (messages s ++ [dict_message user (Some l)])%list
                         (world s) (trace s)))
        as (r & s1 & added & later & R & _ & T & _).
      rewrite R. cbn [trace] in T. destruct r as [[]|e].
      * destruct (IH s1) as [events Hev]. rewrite Hev, T.
        eexists. now rewrite <- app_assoc.
      * cbn [snd]. eauto.
Qed.

(** The lines after an exit command are never read. *)
Lemma session_stops_at_exit (pre : list string) (line : string)
  (rest : list string) (s : store E) :
  is_exit_command E line = true ->
  session_loop E (pre ++ line :: rest)%list s
  = session_loop E (pre ++ [line])%list s.
Proof.
  intros Hline. revert s; induction pre as [|l pre IH]; intros s;
    cbn [app session_loop].
  - now rewrite Hline.
  - destruct (is_exit_command E l); [reflexivity|].
    unfold bind, append_message.
    destruct (agent_turn E _) as [[[]|e] s1]; [apply IH | reflexivity].
Qed.

(** The lines before the exit command, one turn each, when the console
    printed every line. *)
Lemma session_prefix_printed (pre : list string) (line : string) (s : store E) :
  Forall (fun l => is_exit_command E l = false) pre ->
  is_exit_command E line = true ->
  printed_since s (snd (session_loop E (pre ++ [line])%list s)) ->
  exists s' added,
    session_loop E (pre ++ [line])%list s = (Ok tt, s')
    /\ messages s' = (messages s ++ added)%list
    /\ user_lines added = map Some pre
    /\ Forall (fun m => is_system m = false) added.
Proof.
  intros Hpre Hline; revert s; induction Hpre as [|l pre Hl _ IH]; intros s.
  - cbn [app session_loop]. rewrite Hline. intros _.
    exists s, []. cbn. rewrite app_nil_r. repeat split. constructor.
  - cbn [app session_loop]. rewrite Hl.
    unfold bind, append_message.
    destruct (agent_turn_facts E
                (Store (messages s ++ [dict_message user (Some l)])%list
                       (world s) (trace s)))
      as (r & s1 & a1 & later & R & M1 & T1 & W & _ & _ & X).
    rewrite R. cbn [messages trace] in M1, T1.
    destruct r as [[]|e].
    + intros Hp.
      destruct (session_trace_extends (pre ++ [line])%list s1) as [ev2 T2].
      assert (Hall : Forall (accepted E)
                       (EvChat (first_request E
                                  (Store (messages s ++ [dict_message user (Some l)])%list
                                         (world s) (trace s)))
                        :: later ++ ev2)%list).
      { eapply printed_since_events; [|exact Hp].
        rewrite T2, T1, <- app_assoc. reflexivity. }
      apply Forall_accepted_inv in Hall as [_ Hall].
      apply Forall_app in Hall as [_ Hall2].
      destruct (IH s1) as (s' & a2 & R2 & M2 & U2 & N2).
      { exists ev2. now split. }
      exists s', (dict_message user (Some l) :: a1 ++ a2)%list.
      split; [exact R2|]. split; [|split].
      * rewrite M2, M1. cbn. now rewrite <- !app_assoc.
      * change (dict_message user (Some l) :: a1 ++ a2)%list
          with ([dict_message user (Some l)] ++ a1 ++ a2)%list.
        rewrite !user_lines_app, (user_lines_of_agent a1 W), U2. reflexivity.
      * constructor; [reflexivity|]. apply Forall_app. split; [|exact N2].
        exact (no_system_of_agent a1 W).
    + cbn [snd]. intros Hp.
      pose proof (printed_since_events E _ _ _ T1 Hp) as Hall.
      apply Forall_accepted_inv in Hall as [_ Hall].
      destruct (X Hall) as [Hr _]. discriminate Hr.
Qed.

(** X12. A session whose input reaches an exit command and whose console
    lines are all printed ends normally.  Its transcript is the system
    prompt followed by the user's lines before the command, one user
    message each and in order, among messages of the assistant and tool
    roles only; the lines after the command are never read. *)
Theorem session_transcript
  (pre : list string) (line : string) (rest : list string) (s : store E) :
  Forall (fun l => is_exit_command E l = false) pre ->
  is_exit_command E line = true ->
  printed_since s (snd (run_shopping_agent E (pre ++ line :: rest)%list s)) ->
  exists s' tail,
    run_shopping_agent E (pre ++ line :: rest)%list s = (Ok tt, s')
    /\ run_shopping_agent E (pre ++ [line])%list s = (Ok tt, s')
    /\ messages s' = Message system (Some SYSTEM_PROMPT) None None None :: tail
    /\ user_lines tail = map Some pre
    /\ Forall (fun m => is_system m = false) tail.
Proof.
  intros Hpre Hline. unfold run_shopping_agent.
  rewrite (session_stops_at_exit pre line rest _ Hline). intros Hp.
  destruct (session_prefix_printed pre line
              (Store [dict_message system (Some SYSTEM_PROMPT)] (world s) (trace s))
              Hpre Hline Hp)
    as (s' & added & R & M & U & N).
  exists s', added. repeat split; assumption.
Qed.

(** X13. When [requests.get] raises during an executed call whose two
    console lines are printed, the error variant is serialized into the
    tool message of that call and the follow-up completion without tools is
    still requested. *)
Theorem catalog_failure_reaches_the_model
  (tc : tool_call) (s : store E) (e : exn) (w : World E) :
  executable E tc = true ->
  requests_get E url (world s) = (Raise e, w) ->
  let out := json_dumps E (failure_result e) in
  let l1 := tool_call_line (tc_name tc) (tc_arguments tc) in
  let l2 := tool_output_line out in
  let tm := Message tool (Some out) None (Some (tc_id tc)) (Some (tc_name tc)) in
  let req := ChatRequest model (messages s ++ [tm])%list None None in
  console_print E l1 = Ok tt ->
  console_print E l2 = Ok tt ->
  exists r s' more_messages more_events,
    dispatch_tool_call E tc s = (r, s')
    /\ messages s' = (messages s ++ tm :: more_messages)%list
    /\ trace s'
       = (trace s ++ [EvGet url; EvPrint l1; EvPrint l2; EvChat req]
          ++ more_events)%list.
Proof.
  intros Hx H. cbv zeta. intros P1 P2.
  pose proof (dispatch_executed_begins E tc s Hx) as B. cbv zeta in B.
  rewrite H in B. cbn [fst snd] in B.
  unfold fetch_value in B. cbn [rbind] in B.
  destruct (B P1 P2) as (r & s' & mm & me & R & M & T & _).
  exists r, s', mm, me. now split.
Qed.

(** X14. A turn in which the model requests tool calls and the console
    prints every line lengthens the transcript by the model's message, one
    message for every requested call and one more for every executed call
    (its tool result). *)
Theorem turn_with_tool_calls_length
  (s : store E) (response : chat_completion) (w : World E)
  (response_message : chat_message) (more : list chat_message)
  (tcs : list tool_call) :
  chat_completions_create E (first_request E s) (world s) = (Ok response, w) ->
  choices response = response_message :: more ->
  cm_tool_calls response_message = Some tcs ->
  tcs <> [] ->
  printed_since s (snd (agent_turn E s)) ->
  length (messages (snd (agent_turn E s)))
  = length (messages s) + 1 + length tcs + length (filter (executable E) tcs).
Proof.
  intros H Hc Ht Hne.
  destruct (agent_turn_tool_calls E s _ _ _ _ _ H Hc Ht Hne)
    as (r & s' & added & later & R & M & T & _ & _ & _ & _ & _ & X).
  rewrite R. cbn [snd]. intros Hp.
  pose proof (printed_since_events E _ _ _ T Hp) as Hall.
  apply Forall_accepted_inv in Hall as [_ Hall].
  destruct (X Hall) as (_ & _ & L & _).
  rewrite M, length_app. cbn [length]. lia.
Qed.

(** X15. When the console cannot print the model's direct answer and
    cannot print the failure panel either, the turn raises after the answer
    was appended, and the session ends there: the remaining lines are not
    read. *)
Theorem unprintable_answer_ends_the_session
  (line : string) (rest : list string) (s : store E)
  (response : chat_completion) (w : World E)
  (response_message : chat_message) (more : list chat_message) (e1 e2 : exn) :
  is_exit_command E line = false ->
  let user_message := Message user (Some line) None None None in
  let request :=
    ChatRequest model (messages s ++ [user_message])%list
                (Some available_tools) (Some "auto") in
  let answer :=
    Panel ("[green]Agent:[/green] "
           ++ match cm_content response_message with
              | Some text => text
              | None => "None"
              end)
          "green" in
  let failure :=
    Panel ("[bold red]An unexpected error occurred:[/bold red] " ++ exn_str e1)
          "red" in
  chat_completions_create E request (world s) = (Ok response, w) ->
  choices response = response_message :: more ->
  cm_tool_calls response_message = None ->
  console_print E answer = Raise e1 ->
  console_print E failure = Raise e2 ->
  session_loop E (line :: rest) s
  = (Raise e2,
     Store (messages s
            ++ [user_message;
                Message assistant (cm_content response_message) None None None])%list
           w (trace s ++ [EvChat request; EvPrint answer; EvPrint failure])%list).
Proof.
  intros Hexit. cbv zeta. intros H Hc Ht P1 P2.
  cbn [session_loop]. rewrite Hexit.
  unfold bind at 1 2, append_message, dict_message.
  rewrite agent_turn_run. cbv zeta. unfold first_request.
  cbn [messages world trace]. rewrite H. cbn [fst snd]. rewrite Hc.
  unfold try_except, handle_response. rewrite Ht. cbn [has_tool_calls].
  unfold bind, append_message, print, dict_message, answer_panel,
    format_content. cbn [messages world trace]. rewrite P1.
  rewrite apologize_run. unfold failure_panel, with_event.
  cbn [messages world trace]. rewrite P2. now rewrite <- !app_assoc.
Qed.

End OrchestratorFurther.
(** * The further properties at concrete inputs *)

Lemma fetch_with_non_string_query_witness :
  (exists text,
     fst (get_products_api env (JInt 5) two_products)
     = Ok (JObj [("error", JStr ("An unexpected error occurred: " ++ text))]))
  /\ fst (get_products_api env (JInt 0) two_products)
     = Ok (JObj [("data", JArr [shoe; watch])]).
Proof.
  split.
  - refine (proj2 (fetch_with_non_string_query env (JInt 5) two_products
                     (HttpResponse 200 "OK" (Ok (catalog_body [shoe; watch])))
                     (Script [] []) [("data", JArr [shoe; watch])] [shoe; watch]
                     eq_refl (or_introl eq_refl) eq_refl eq_refl _) eq_refl).
    intros text H; discriminate H.
  - refine (proj1 (fetch_with_non_string_query env (JInt 0) two_products
                     (HttpResponse 200 "OK" (Ok (catalog_body [shoe; watch])))
                     (Script [] []) [("data", JArr [shoe; watch])] [shoe; watch]
                     eq_refl (or_introl eq_refl) eq_refl eq_refl _) eq_refl).
    intros text H; discriminate H.
Defined.

Lemma narrower_query_narrows_result_witness :
  exists R1,
    select_products env (JStr "SHOE") (JArr [shoe; watch; shoe_lamp])
    = Ok (JArr R1)
    /\ Subsequence [shoe] R1.
Proof.
  apply (narrower_query_narrows_result env "SHOE" "Running Shoe"
           [shoe; watch; shoe_lamp] [shoe]).
  - discriminate.
  - exists "running ", EmptyString. reflexivity.
  - reflexivity.
Defined.

Lemma fetch_undecodable_body_witness :
  fst (get_products_api env JNull undecodable_body)
  = Ok (JObj [("error",
               JStr "Failed to fetch products from API: Expecting value: line 1 column 1 (char 0)")]).
Proof.
  rewrite (fetch_undecodable_body env JNull undecodable_body
             (HttpResponse 200 "OK"
                (Raise (Exn RequestsJSONDecodeError
                          "Expecting value: line 1 column 1 (char 0)")))
             (Script [] [])
             (Exn RequestsJSONDecodeError "Expecting value: line 1 column 1 (char 0)")
             eq_refl (or_introl eq_refl) eq_refl).
  reflexivity.
Defined.


Lemma unknown_tool_is_reported_witness :
  for_each [price_call; catalog_call] (dispatch_tool_call env) pending_call
  = for_each [catalog_call] (dispatch_tool_call env)
      (Store (E := env)
         (messages pending_call
          ++ [Message assistant
                (Some "I was asked to use an unknown tool (lookup_price). Please try again or rephrase your request.")
                None None None])%list
         (world pending_call)
         [EvPrint (Markup "[bold red]Error:[/bold red] Unknown tool requested by agent: lookup_price")]).
Proof.
  refine (proj2 (unknown_tool_is_reported env price_call [catalog_call]
                   pending_call _ _)).
  - discriminate.
  - reflexivity.
Defined.

Lemma unusable_arguments_are_reported_witness :
  exists text,
    dispatch_tool_call env list_call pending_call
    = (Ok tt,
       Store (E := env)
         (messages pending_call
          ++ [Message assistant
                (Some ("I encountered an error while trying to find products: "
                       ++ text)%string)
                None None None])%list
         (world pending_call)
         [EvPrint
            (Markup ("[bold red]Error:[/bold red] Error executing tool get_products_api: "
                     ++ text))]).
Proof.
  apply (unusable_arguments_are_reported env list_call pending_call (JArr [])
           eq_refl eq_refl).
  - intros fields H. discriminate H.
  - eexists. split; [reflexivity|]. repeat constructor.
Defined.

Lemma direct_answer_is_appended_witness :
  agent_turn env (asked "hi" (Script [] [says "hello"; says "what can I find for you?"]))
  = (Ok tt,
     Store (E := env)
       (messages prose_session
        ++ [Message user (Some "hi") None None None;
            Message assistant (Some "hello") None None None])%list
       (Script [] [says "what can I find for you?"])
       [EvChat (ChatRequest model
                  (messages prose_session
                   ++ [Message user (Some "hi") None None None])%list
                  (Some available_tools) (Some "auto"));
        EvPrint (Panel "[green]Agent:[/green] hello" "green")]).
Proof.
  exact (direct_answer_is_appended env
           (asked "hi" (Script [] [says "hello"; says "what can I find for you?"]))
           (ChatCompletion [ChatMessage (Some "hello") None])
           (Script [] [says "what can I find for you?"])
           (ChatMessage (Some "hello") None) []
           eq_refl eq_refl (or_introl eq_refl) eq_refl).
Defined.

Lemma turn_extends_transcript_witness :
  exists added,
    messages (snd (agent_turn env catalog_turn))
    = (messages catalog_turn ++ added)%list
    /\ Forall (fun m => written_by_agent m = true) added
    /\ fst (agent_turn env catalog_turn) = Ok tt
    /\ ends_with_assistant added.
Proof.
  destruct (turn_extends_transcript env catalog_turn) as (added & M & W & X).
  exists added. split; [exact M|]. split; [exact W|]. apply X.
  eexists. split; [reflexivity|]. repeat constructor.
Defined.

Lemma turn_requests_match_executed_calls_witness :
  exists events,
    trace (snd (agent_turn env catalog_turn))
    = (trace catalog_turn
       ++ EvChat (first_request env catalog_turn) :: events)%list
    /\ length (filter is_get events) = 1
    /\ length (filter is_chat events) = 1.
Proof.
  refine (turn_requests_match_executed_calls env catalog_turn
            (ChatCompletion [ChatMessage None (Some [catalog_call])])
            (Script [ok_body (catalog_body [shoe; watch])]
                    [says "We have a shoe and a watch."])
            (ChatMessage None (Some [catalog_call])) [] [catalog_call]
            eq_refl eq_refl eq_refl _ _).
  - discriminate.
  - eexists. split; [reflexivity|]. repeat constructor.
Defined.

Lemma session_transcript_witness :
  exists s' tail,
    run_shopping_agent env (["hi"; "shoes"] ++ " EXIT " :: ["never read"])%list
      prose_session = (Ok tt, s')
    /\ run_shopping_agent env (["hi"; "shoes"] ++ [" EXIT "])%list prose_session
       = (Ok tt, s')
    /\ messages s' = Message system (Some SYSTEM_PROMPT) None None None :: tail
    /\ user_lines tail = [Some "hi"; Some "shoes"]
    /\ Forall (fun m => is_system m = false) tail.
Proof.
  apply (session_transcript env ["hi"; "shoes"] " EXIT " ["never read"]
           prose_session).
  - repeat constructor.
  - reflexivity.
  - eexists. split; [reflexivity|]. repeat constructor.
Defined.

Lemma catalog_failure_reaches_the_model_witness :
  exists r s' more_messages more_events,
    dispatch_tool_call env catalog_call
      (start (Script [] [says "The catalog is unavailable."]))
    = (r, s')
    /\ messages s'
       = (messages (start (Script [] []))
          ++ Message tool
               (Some "error: Failed to fetch products from API: connection refused")
               None (Some "z") (Some "get_products_api")
          :: more_messages)%list
    /\ trace s'
       = ([EvGet url;
           EvPrint (tool_call_line "get_products_api" "{}");
           EvPrint (tool_output_line
                      "error: Failed to fetch products from API: connection refused");
           EvChat (ChatRequest model
                     (messages (start (Script [] []))
                      ++ [Message tool
                            (Some "error: Failed to fetch products from API: connection refused")
                            None (Some "z") (Some "get_products_api")])%list
                     None None)]
          ++ more_events)%list.
Proof.
  exact (catalog_failure_reaches_the_model env catalog_call
           (start (Script [] [says "The catalog is unavailable."]))
           (Exn RequestException "connection refused")
           (Script [] [says "The catalog is unavailable."])
           eq_refl eq_refl eq_refl eq_refl).
Defined.

Lemma turn_with_tool_calls_length_witness :
  length (messages (snd (agent_turn env catalog_turn)))
  = length (messages catalog_turn) + 1 + 1 + 1.
Proof.
  refine (turn_with_tool_calls_length env catalog_turn
            (ChatCompletion [ChatMessage None (Some [catalog_call])])
            (Script [ok_body (catalog_body [shoe; watch])]
                    [says "We have a shoe and a watch."])
            (ChatMessage None (Some [catalog_call])) [] [catalog_call]
            eq_refl eq_refl eq_refl _ _).
  - discriminate.
  - eexists. split; [reflexivity|]. repeat constructor.
Defined.

Lemma unprintable_answer_ends_the_session_witness :
  session_loop env ["any offers?"; "never read"]
    (start (Script [] [says "Everything is 50% off [/oops]"; says "unused"]))
  = (Raise (Exn OtherException "closing tag '[/oops]' doesn't match any open tag"),
     Store (E := env)
       [Message system (Some SYSTEM_PROMPT) None None None;
        Message user (Some "any offers?") None None None;
        Message assistant (Some "Everything is 50% off [/oops]") None None None]
       (Script [] [says "unused"])
       [EvChat (ChatRequest model
                  [Message system (Some SYSTEM_PROMPT) None None None;
                   Message user (Some "any offers?") None None None]
                  (Some available_tools) (Some "auto"));
        EvPrint (Panel "[green]Agent:[/green] Everything is 50% off [/oops]"
                       "green");
        EvPrint (Panel "[bold red]An unexpected error occurred:[/bold red] closing tag '[/oops]' doesn't match any open tag"
                       "red")]).
Proof.
  exact (unprintable_answer_ends_the_session env "any offers?" ["never read"]
           (start (Script [] [says "Everything is 50% off [/oops]"; says "unused"]))
           (ChatCompletion [ChatMessage (Some "Everything is 50% off [/oops]") None])
           (Script [] [says "unused"])
           (ChatMessage (Some "Everything is 50% off [/oops]") None) []
           (Exn OtherException "closing tag '[/oops]' doesn't match any open tag")
           (Exn OtherException "closing tag '[/oops]' doesn't match any open tag")
           eq_refl eq_refl eq_refl eq_refl eq_refl eq_refl).
Defined.
